(** * PixUp server: a shallow embedding of [server.js]

    The Express handlers of [server.js] are embedded as pure functions over
    the collection they load, returning the HTTP response and, when the
    handler calls [writePosts] / [writeUsers], the collection it hands over.
    The two JSON files are an explicit [store]; [step] runs one request
    against it (load, handle, save).

    Request fields are untyped JavaScript values.  Stored documents are
    arrays of records with the fields the handlers write; the reaction
    arrays and the comments of a post may be missing, as the handlers
    provide for.  What [uuidv4()], [Date], [bcrypt] and [fs.writeFile] do is
    supplied to each request from outside. *)

From Stdlib Require Import ZArith Ascii String.
From stdpp Require Import base option list strings.

Local Open Scope string_scope.
Local Open Scope list_scope.

(** ** JavaScript values

    A field destructured from [req.body] is whatever [JSON.parse] produced
    for it, or [undefined] when the field is missing. *)

(** A number that [JSON.parse] produces: zero, a finite double other than
    zero, which is [(2 * half + 1) * 2 ^ exponent] up to sign for exactly
    one [half] and [exponent], or an infinity, for a literal out of range
    such as [1e400].  [JSON.parse] produces no NaN.  It does produce a minus
    zero, which [===], [includes], truthiness and [JSON.stringify] do not
    tell from zero: the two are one value here. *)
Inductive number : Type :=
| Zero
| Dyadic (negative : bool) (half : N) (exponent : Z)
| Infinite (negative : bool).

(** Equality of numbers, as [===] and [includes] decide it. *)
Definition number_eqb (x y : number) : bool :=
  match x, y with
  | Zero, Zero => true
  | Dyadic s k e, Dyadic s' k' e' => Bool.eqb s s' && N.eqb k k' && Z.eqb e e'
  | Infinite s, Infinite s' => Bool.eqb s s'
  | _, _ => false
  end.

(** An integer as a number: [odd_part p] is the [half] and the [exponent]
    of [p]. *)
Fixpoint odd_part (p : positive) : N * Z :=
  match p with
  | xH => (0%N, 0%Z)
  | xI q => (Npos q, 0%Z)
  | xO q => let '(half, exponent) := odd_part q in (half, (exponent + 1)%Z)
  end.

Definition number_of_Z (z : Z) : number :=
  match z with
  | Z0 => Zero
  | Zpos p => let '(half, exponent) := odd_part p in Dyadic false half exponent
  | Zneg p => let '(half, exponent) := odd_part p in Dyadic true half exponent
  end.

(** A string is held as the bytes of its UTF-8 encoding (a lone surrogate
    as the three bytes of its generalised encoding), so that equal strings
    are equal byte for byte.  An object or an array is carried by the text
    [JSON.stringify] writes for it. *)
Inductive value : Type :=
| VUndefined
| VNull
| VBool (b : bool)
| VNum (n : number)
| VStr (s : string)
| VObj (text : string).

(** [!v] is [negb (truthy v)]. *)
Definition truthy (v : value) : bool :=
  match v with
  | VUndefined | VNull => false
  | VBool b => b
  | VNum Zero => false
  | VNum _ => true
  | VStr s => negb (String.eqb s "")
  | VObj _ => true
  end.

(** [a || d] *)
Definition or_else (a d : value) : value := if truthy a then a else d.

(** [a === b] where [a] was read from a stored document and [b] from the
    request body.  Objects and arrays compare by reference, and two values
    parsed from different documents never share one. *)
Definition strict_eq (a b : value) : bool :=
  match a, b with
  | VUndefined, VUndefined => true
  | VNull, VNull => true
  | VBool x, VBool y => Bool.eqb x y
  | VNum x, VNum y => number_eqb x y
  | VStr x, VStr y => String.eqb x y
  | _, _ => false
  end.

(** [l.includes(v)]: SameValueZero, which on JSON values is [===]. *)
Definition includes (l : list value) (v : value) : bool :=
  existsb (fun x => strict_eq x v) l.

(** [l.filter(id => id !== v)] *)
Definition without (v : value) (l : list value) : list value :=
  List.filter (fun x => negb (strict_eq x v)) l.

(** The white space and line terminators that [String.prototype.trim]
    strips, by the bytes of their UTF-8 encoding.  One byte: U+0009 to
    U+000D and U+0020. *)
Definition space1 (c : ascii) : bool :=
  let n := nat_of_ascii c in
  (Nat.leb 9 n && Nat.leb n 13) || Nat.eqb n 32.

(** Two bytes: U+00A0. *)
Definition space2 (c1 c2 : ascii) : bool :=
  Nat.eqb (nat_of_ascii c1) 194 && Nat.eqb (nat_of_ascii c2) 160.

(** Three bytes: U+1680, U+2000 to U+200A, U+2028, U+2029, U+202F, U+205F,
    U+3000 and U+FEFF. *)
Definition space3 (c1 c2 c3 : ascii) : bool :=
  let n1 := nat_of_ascii c1 in
  let n2 := nat_of_ascii c2 in
  let n3 := nat_of_ascii c3 in
  (Nat.eqb n1 225 && Nat.eqb n2 154 && Nat.eqb n3 128)
  || (Nat.eqb n1 226 && Nat.eqb n2 128
      && ((Nat.leb 128 n3 && Nat.leb n3 138)
          || Nat.eqb n3 168 || Nat.eqb n3 169 || Nat.eqb n3 175))
  || (Nat.eqb n1 226 && Nat.eqb n2 129 && Nat.eqb n3 159)
  || (Nat.eqb n1 227 && Nat.eqb n2 128 && Nat.eqb n3 128)
  || (Nat.eqb n1 239 && Nat.eqb n2 187 && Nat.eqb n3 191).

(** [s.trim() === '']: the string is made of such characters only. *)
Fixpoint blank (s : string) : bool :=
  match s with
  | EmptyString => true
  | String c1 s1 =>
      if space1 c1 then blank s1
      else
        match s1 with
        | EmptyString => false
        | String c2 s2 =>
            if space2 c1 c2 then blank s2
            else
              match s2 with
              | EmptyString => false
              | String c3 s3 => if space3 c1 c2 c3 then blank s3 else false
              end
        end
  end.

(** ** Records of the two collections *)

Record Comment : Type := mkComment {
  comment_id : string;
  comment_userId : value;
  comment_user : value;
  comment_text : value;
  comment_timestamp : string
}.

Record Post : Type := mkPost {
  post_id : string;
  post_userId : value;
  post_username : value;
  post_content : value;
  post_image : value;
  post_video : value;
  post_timestamp : string;
  likedBy : option (list value);     (* [None]: the property is missing *)
  dislikedBy : option (list value);
  comments : option (list Comment)
}.

Record User : Type := mkUser {
  user_id : string;
  user_username : string;
  passwordHash : string
}.

(** The array a handler works on after [if (!post.likedBy) post.likedBy = []]. *)
Definition liked (p : Post) : list value := default [] (likedBy p).
Definition disliked (p : Post) : list value := default [] (dislikedBy p).
Definition commented (p : Post) : list Comment := default [] (comments p).

Definition set_reactions (p : Post) (l d : list value) : Post :=
  mkPost (post_id p) (post_userId p) (post_username p) (post_content p)
         (post_image p) (post_video p) (post_timestamp p) (Some l) (Some d) (comments p).

Definition set_comments (p : Post) (c : list Comment) : Post :=
  mkPost (post_id p) (post_userId p) (post_username p) (post_content p)
         (post_image p) (post_video p) (post_timestamp p) (likedBy p) (dislikedBy p) (Some c).

(** ** HTTP responses *)

Inductive body : Type :=
| Message (message : string)
| Session (userId : string) (username : string) (message : string)
| PostJson (p : Post)
| PostsJson (l : list Post).

Record response : Type := mkResponse { status : nat; json : body }.

Definition reply (code : nat) (message : string) : response :=
  mkResponse code (Message message).

(** ** Persistence layer *)

(** [JSON.stringify] writes [null] for a number that is not finite, so that
    is what [JSON.parse] reads back; a property that is [undefined] is left
    out and reads back [undefined]. *)
Definition json_field (v : value) : value :=
  match v with
  | VNum (Infinite _) => VNull
  | _ => v
  end.

(** In an array, [JSON.stringify] writes [null] for an [undefined] element
    too. *)
Definition json_element (v : value) : value :=
  match v with
  | VUndefined => VNull
  | _ => json_field v
  end.

Definition json_comment (c : Comment) : Comment :=
  mkComment (comment_id c) (json_field (comment_userId c))
            (json_field (comment_user c)) (json_field (comment_text c))
            (comment_timestamp c).

Definition json_post (p : Post) : Post :=
  mkPost (post_id p) (json_field (post_userId p)) (json_field (post_username p))
         (json_field (post_content p)) (json_field (post_image p))
         (json_field (post_video p)) (post_timestamp p)
         (map json_element <$> likedBy p)
         (map json_element <$> dislikedBy p)
         (map json_comment <$> comments p).

(** The state of a backing file, as a load meets it. *)
Inductive file (A : Type) : Type :=
| NoFile                    (* the file does not exist *)
| ReadFails (code : string) (* readFile rejects with this error code *)
| BadJson                   (* the text is not JSON *)
| Doc (d : list A).         (* the text is JSON.stringify(d, null, 2) *)
Arguments NoFile {A}.
Arguments ReadFails {A} code.
Arguments BadJson {A}.
Arguments Doc {A} d.

(** What the [try] block of a reader can throw. *)
Inductive exn : Type :=
| ErrnoException (code : string)
| SyntaxError.

(** [error.code] *)
Definition exn_code (error : exn) : value :=
  match error with
  | ErrnoException code => VStr code
  | SyntaxError => VUndefined
  end.

(** The [try] block: [await fs.readFile(FILE, 'utf8')] and then
    [JSON.parse(data)], with [parse] the way an element reads back. *)
Definition read_and_parse {A : Type} (parse : A -> A) (f : file A) : exn + list A :=
  match f with
  | NoFile => inl (ErrnoException "ENOENT")
  | ReadFails code => inl (ErrnoException code)
  | BadJson => inl SyntaxError
  | Doc d => inr (map parse d)
  end.

(** The result of a load and whether [console.error] was called. *)
Record loaded (A : Type) : Type := mkLoaded { rows : list A; logged : bool }.
Arguments mkLoaded {A} rows logged.
Arguments rows {A} l.
Arguments logged {A} l.

Definition readPosts (f : file Post) : loaded Post :=
  match read_and_parse json_post f with
  | inr posts => mkLoaded posts false
  | inl error =>
      if strict_eq (exn_code error) (VStr "ENOENT")
      then mkLoaded [] false
      else mkLoaded [] true
  end.

Definition readUsers (f : file User) : loaded User :=
  match read_and_parse (fun user => user) f with
  | inr users => mkLoaded users false
  | inl error =>
      if strict_eq (exn_code error) (VStr "ENOENT")
      then mkLoaded [] false
      else mkLoaded [] true
  end.

(** *** The loaders over every state of a file

    [file] has the states in which a file holds a collection or fails to
    load, which are the states the writers and [step] move between.  A file
    can also hold JSON that is not an array; the loaders return what
    [JSON.parse] makes of it without looking at it. *)
Module Disk.

(** The text of a file, by what [JSON.parse] makes of it. *)
Inductive text (A : Type) : Type :=
| NotJson                 (* JSON.parse throws a SyntaxError *)
| ArrayText (d : list A)  (* the text of the array of records [d] *)
| OtherText (v : value).  (* the text of a value that is not an array *)
Arguments NotJson {A}.
Arguments ArrayText {A} d.
Arguments OtherText {A} v.

Inductive state (A : Type) : Type :=
| Missing                   (* the file does not exist *)
| Unreadable (code : string) (* readFile rejects with this error code *)
| Holds (t : text A).
Arguments Missing {A}.
Arguments Unreadable {A} code.
Arguments Holds {A} t.

(** What [JSON.parse] returned: an array of records, or another value. *)
Inductive parsed (A : Type) : Type :=
| Rows (d : list A)
| NotRows (v : value).
Arguments Rows {A} d.
Arguments NotRows {A} v.

(** An awaited call throws ([inl]) or returns ([inr]). *)
Definition readFile {A : Type} (f : state A) : exn + text A :=
  match f with
  | Missing => inl (ErrnoException "ENOENT")
  | Unreadable code => inl (ErrnoException code)
  | Holds t => inr t
  end.

Definition JSON_parse {A : Type} (read : A -> A) (t : text A) : exn + parsed A :=
  match t with
  | NotJson => inl SyntaxError
  | ArrayText d => inr (Rows (map read d))
  | OtherText v => inr (NotRows v)
  end.

(** [try { body } catch (error) { handler }] *)
Definition try_catch {B : Type} (body : exn + B) (handler : exn -> exn + B) : exn + B :=
  match body with
  | inr b => inr b
  | inl error => handler error
  end.

(** The body of both loaders, with the way a record reads back; the
    boolean tells whether [console.error] was called. *)
Definition load {A : Type} (read : A -> A) (f : state A) : exn + (parsed A * bool) :=
  try_catch
    (match readFile f with
     | inl error => inl error
     | inr data =>
         match JSON_parse read data with
         | inl error => inl error
         | inr collection => inr (collection, false)
         end
     end)
    (fun error =>
       if strict_eq (exn_code error) (VStr "ENOENT")
       then inr (Rows [], false)
       else inr (Rows [], true)).

Definition readPosts (f : state Post) : exn + (parsed Post * bool) :=
  load json_post f.

Definition readUsers (f : state User) : exn + (parsed User * bool) :=
  load (fun user => user) f.

(** The states of [file] among the states of a file. *)
Definition of_file {A : Type} (f : file A) : state A :=
  match f with
  | NoFile => Missing
  | ReadFails code => Unreadable code
  | BadJson => Holds NotJson
  | Doc d => Holds (ArrayText d)
  end.

End Disk.

(** [ok] tells whether [fs.writeFile] resolves; a rejected write is logged
    and swallowed, and is taken to leave the file as it was. *)
Definition writePosts (ok : bool) (posts : list Post) (f : file Post) : file Post :=
  if ok then Doc posts else f.

Definition writeUsers (ok : bool) (users : list User) (f : file User) : file User :=
  if ok then Doc users else f.

(** ** External collaborators *)

(** The [bcrypt] module, as an opaque capability.  [bcrypt_hash password
    rounds salt] is the hash computed with the salt drawn for this call;
    [None] stands for a rejected promise, which the handlers catch. *)
Class HashService : Type := {
  bcrypt_hash : string -> nat -> string -> option string;
  bcrypt_compare : string -> string -> option bool
}.

(** What the environment supplies to one request: the result of [uuidv4()],
    of [new Date().toISOString()], the salt [bcrypt.hash] draws, and whether
    [fs.writeFile] resolves. *)
Record env : Type := mkEnv {
  uuid : string;
  now : string;
  salt : string;
  write_ok : bool
}.

(** ** Identity handlers *)

(** The guard
    [!username || username.trim() === '' || !password || password.trim() === '']
    evaluated left to right. *)
Inductive credentials : Type :=
| Rejected                          (* the guard is true: 400 *)
| Accepted (name password : string) (* the guard is false *)
| TypeError.                        (* [.trim] is not a function *)

Definition check_credentials (username password : value) : credentials :=
  if negb (truthy username) then Rejected else
  match username with
  | VStr name =>
      if blank name then Rejected else
      if negb (truthy password) then Rejected else
      match password with
      | VStr pw => if blank pw then Rejected else Accepted name pw
      | _ => TypeError
      end
  | _ => TypeError
  end.

(** What a handler did: the response it sent and the collection it passed to
    the writer, if it called it; or the exception that escaped it. *)
Inductive outcome (A : Type) : Type :=
| Done (r : response) (w : option (list A))
| Threw.
Arguments Done {A} r w.
Arguments Threw {A}.

Definition empty_credentials : response :=
  reply 400 "Username and password cannot be empty.".
Definition username_taken : response :=
  reply 409 "Username already exists. Please choose a different one or log in.".
Definition invalid_login : response :=
  reply 401 "Invalid username or password.".

Section Identity.
Context `{HashService}.

(** [app.post('/api/signup')] *)
Definition signup (e : env) (username password : value) (users : list User)
  : outcome User :=
  match check_credentials username password with
  | TypeError => Threw
  | Rejected => Done empty_credentials None
  | Accepted name pw =>
      if existsb (fun user => String.eqb (user_username user) name) users
      then Done username_taken None
      else
        match bcrypt_hash pw 10 (salt e) with
        | Some hashedPassword =>
            let newUser := mkUser (uuid e) name hashedPassword in
            Done (mkResponse 201
                    (Session (user_id newUser) (user_username newUser)
                             "User registered successfully!"))
                 (Some (users ++ [newUser]))
        | None => Done (reply 500 "Server error during registration.") None
        end
  end.

(** [app.post('/api/login')] *)
Definition login (username password : value) (users : list User)
  : outcome User :=
  match check_credentials username password with
  | TypeError => Threw
  | Rejected => Done empty_credentials None
  | Accepted name pw =>
      match List.find (fun u => String.eqb (user_username u) name) users with
      | None => Done invalid_login None
      | Some user =>
          match bcrypt_compare pw (passwordHash user) with
          | Some true =>
              Done (mkResponse 200
                      (Session (user_id user) (user_username user)
                               "Logged in successfully!")) None
          | Some false => Done invalid_login None
          | None => Done (reply 500 "Server error during login.") None
          end
      end
  end.
End Identity.

(** ** Post handlers *)

Definition missing_post_data : response :=
  reply 400 "Missing required post data or user not authenticated.".
Definition not_authorized : response :=
  reply 403 "Post not found or you are not authorized to delete this post.".
Definition no_posts_for_user : response :=
  reply 404 "No posts found for this user.".
Definition post_not_found : response := reply 404 "Post not found.".
Definition remove_dislike_first : response :=
  reply 400 "Remove your dislike first.".
Definition remove_like_first : response :=
  reply 400 "Please remove your like first.".
Definition missing_comment_data : response :=
  reply 400 "Missing comment data or user not authenticated.".

(** [app.get('/api/posts')] *)
Definition list_posts (posts : list Post) : outcome Post :=
  Done (mkResponse 200 (PostsJson posts)) None.

(** [app.post('/api/posts')] *)
Definition create_post (e : env) (userId username content image video : value)
    (posts : list Post) : outcome Post :=
  if negb (truthy userId) || negb (truthy username)
     || (negb (truthy content) && negb (truthy image) && negb (truthy video))
  then Done missing_post_data None
  else
    let newPost :=
      mkPost (uuid e) userId username (or_else content (VStr ""))
             (or_else image VNull) (or_else video VNull) (now e)
             (Some []) (Some []) (Some []) in
    Done (mkResponse 201 (PostJson newPost)) (Some (posts ++ [newPost])).

(** [p.id === postId && p.userId === userId] *)
Definition owned_by (postId : string) (userId : value) (p : Post) : bool :=
  String.eqb (post_id p) postId && strict_eq (post_userId p) userId.

(** [app.delete('/api/posts/:id')] *)
Definition delete_post (postId : string) (userId : value) (posts : list Post)
    : outcome Post :=
  let initialLength := length posts in
  let posts' := List.filter (fun p => negb (owned_by postId userId p)) posts in
  if Nat.ltb (length posts') initialLength
  then Done (reply 200 "Post deleted successfully.") (Some posts')
  else Done not_authorized None.

(** [app.post('/api/posts/clear_mine')] *)
Definition clear_mine (userId : value) (posts : list Post) : outcome Post :=
  let initialLength := length posts in
  let posts' :=
    List.filter (fun p => negb (strict_eq (post_userId p) userId)) posts in
  if Nat.ltb (length posts') initialLength
  then Done (reply 200 "Your posts cleared successfully.") (Some posts')
  else Done no_posts_for_user None.

(** [posts.findIndex(p => p.id === postId)] together with
    [posts[postIndex]]; [None] is the index [-1]. *)
Definition find_post (postId : string) (posts : list Post) : option (nat * Post) :=
  list_find (fun p => post_id p = postId) posts.

(** [app.post('/api/posts/:id/like')] *)
Definition like_post (postId : string) (userId : value) (posts : list Post)
    : outcome Post :=
  match find_post postId posts with
  | None => Done post_not_found None
  | Some (postIndex, post) =>
      if includes (disliked post) userId
      then Done remove_dislike_first None
      else
        let likedBy' :=
          if includes (liked post) userId
          then without userId (liked post)
          else liked post ++ [userId] in
        Done (reply 200 "Like status updated.")
             (Some (<[postIndex := set_reactions post likedBy' (disliked post)]> posts))
  end.

(** [app.post('/api/posts/:id/dislike')] *)
Definition dislike_post (postId : string) (userId : value) (posts : list Post)
    : outcome Post :=
  match find_post postId posts with
  | None => Done post_not_found None
  | Some (postIndex, post) =>
      if includes (liked post) userId
      then Done remove_like_first None
      else
        let dislikedBy' :=
          if includes (disliked post) userId
          then without userId (disliked post)
          else disliked post ++ [userId] in
        Done (reply 200 "Dislike status updated.")
             (Some (<[postIndex := set_reactions post (liked post) dislikedBy']> posts))
  end.

(** [app.post('/api/posts/:id/comment')] *)
Definition comment_post (e : env) (postId : string) (userId username text : value)
    (posts : list Post) : outcome Post :=
  match find_post postId posts with
  | None => Done post_not_found None
  | Some (postIndex, post) =>
      if negb (truthy userId) || negb (truthy username) || negb (truthy text)
      then Done missing_comment_data None
      else
        let newComment := mkComment (uuid e) userId username text (now e) in
        Done (reply 201 "Comment added successfully.")
             (Some (<[postIndex := set_comments post (commented post ++ [newComment])]> posts))
  end.

(** ** The server as a transition system over the two files *)

Record store : Type := mkStore {
  posts_file : file Post;
  users_file : file User
}.

Inductive request : Type :=
| Signup (username password : value)
| Login (username password : value)
| ListPosts
| CreatePost (userId username content image video : value)
| DeletePost (postId : string) (userId : value)
| ClearMine (userId : value)
| Like (postId : string) (userId : value)
| Dislike (postId : string) (userId : value)
| AddComment (postId : string) (userId username text : value).

(** The handler of a request on the posts collection. *)
Definition posts_handler (e : env) (r : request) (posts : list Post)
    : option (outcome Post) :=
  match r with
  | ListPosts => Some (list_posts posts)
  | CreatePost userId username content image video =>
      Some (create_post e userId username content image video posts)
  | DeletePost postId userId => Some (delete_post postId userId posts)
  | ClearMine userId => Some (clear_mine userId posts)
  | Like postId userId => Some (like_post postId userId posts)
  | Dislike postId userId => Some (dislike_post postId userId posts)
  | AddComment postId userId username text =>
      Some (comment_post e postId userId username text posts)
  | Signup _ _ | Login _ _ => None
  end.

(** [None] as a response: the handler threw and sent nothing. *)
Definition save_posts (e : env) (o : outcome Post) (f : file Post)
    : option response * file Post :=
  match o with
  | Done r (Some posts) => (Some r, writePosts (write_ok e) posts f)
  | Done r None => (Some r, f)
  | Threw => (None, f)
  end.

Definition save_users (e : env) (o : outcome User) (f : file User)
    : option response * file User :=
  match o with
  | Done r (Some users) => (Some r, writeUsers (write_ok e) users f)
  | Done r None => (Some r, f)
  | Threw => (None, f)
  end.

Section Server.
Context `{HashService}.

(** One request: load the collection, run the handler, save. *)
Definition step (e : env) (r : request) (s : store) : option response * store :=
  match r with
  | Signup username password =>
      let '(res, f) :=
        save_users e (signup e username password (rows (readUsers (users_file s))))
                   (users_file s) in
      (res, mkStore (posts_file s) f)
  | Login username password =>
      let '(res, f) :=
        save_users e (login username password (rows (readUsers (users_file s))))
                   (users_file s) in
      (res, mkStore (posts_file s) f)
  | _ =>
      match posts_handler e r (rows (readPosts (posts_file s))) with
      | Some o =>
          let '(res, f) := save_posts e o (posts_file s) in
          (res, mkStore f (users_file s))
      | None => (None, s)
      end
  end.

(** A sequence of requests, each with its environment. *)
Fixpoint run (trace : list (env * request)) (s : store) : store :=
  match trace with
  | [] => s
  | (e, r) :: trace' => run trace' (snd (step e r s))
  end.
End Server.

(** The store before the first request: neither file exists. *)
Definition fresh_store : store := mkStore NoFile NoFile.

(** ** Vocabulary of the specification *)

(** The reaction state of a (post, user) pair, derived from membership as
    the handlers test it. *)
Inductive reaction : Type := Neutral | Liked | Disliked.

Definition reaction_of (userId : value) (p : Post) : reaction :=
  if includes (liked p) userId then Liked
  else if includes (disliked p) userId then Disliked
  else Neutral.

(** The values that [JSON.stringify] writes as they are and [===] compares
    by content: [null], a boolean, a finite number or a string. *)
Definition primitive (v : value) : bool :=
  match v with
  | VNull | VBool _ | VStr _ => true
  | VNum (Infinite _) => false
  | VNum _ => true
  | VUndefined | VObj _ => false
  end.

(** The value is not in both reaction sets of the post, membership being
    the test the handlers apply. *)
Definition exclusive_for (v : value) (p : Post) : Prop :=
  ~ (includes (liked p) v = true /\ includes (disliked p) v = true).

(** Mutual exclusion for every value a request can carry. *)
Definition exclusive_all (p : Post) : Prop := forall v, exclusive_for v p.

(** Mutual exclusion for every value other than [null]. *)
Definition exclusive (p : Post) : Prop :=
  forall v, v <> VNull -> exclusive_for v p.

Definition exclusive_store (s : store) : Prop :=
  Forall exclusive (rows (readPosts (posts_file s))).

(** A hash service to run the handlers on: the hash is the salt followed by
    the password behind a separator, and verification recomputes it. *)
Definition toy_hash (password : string) (rounds : nat) (salt : string) : option string :=
  Some (salt ++ "$" ++ password)%string.

Definition toy_compare (password hash : string) : option bool :=
  Some (String.eqb (substring (String.length hash - String.length password)
                              (String.length password) hash) password
        && Nat.ltb (String.length password) (String.length hash)).

Definition toy_service : HashService :=
  {| bcrypt_hash := toy_hash; bcrypt_compare := toy_compare |}.

(** Sample data to run the handlers on. *)
Definition sample_post (postId owner : string) (likes dislikes : list value) : Post :=
  mkPost postId (VStr owner) (VStr owner) (VStr "hi") VNull VNull
         "2025-01-01T00:00:00.000Z" (Some likes) (Some dislikes) (Some []).

Definition sample_env (fresh : string) : env :=
  mkEnv fresh "2025-01-02T00:00:00.000Z" "salt" true.

(** A response that reports a failure: status 400 and above. *)
Definition is_error (r : response) : bool := Nat.leb 400 (status r).

(** The request was not served: the handler threw, or answered with an
    error. *)
Definition failed (o : option response) : bool :=
  match o with
  | Some r => is_error r
  | None => true
  end.

(** The collections a request loads. *)
Definition users_of (s : store) : list User := rows (readUsers (users_file s)).
Definition posts_of (s : store) : list Post := rows (readPosts (posts_file s)).

Definition usernames (users : list User) : list string := map user_username users.
Definition post_ids (posts : list Post) : list string := map post_id posts.

(** Two versions of a post that differ at most in their reaction arrays. *)
Definition same_but_reactions (p q : Post) : Prop :=
  post_id p = post_id q /\ post_userId p = post_userId q /\
  post_username p = post_username q /\ post_content p = post_content q /\
  post_image p = post_image q /\ post_video p = post_video q /\
  post_timestamp p = post_timestamp q /\ comments p = comments q.

(** [typeof v !== 'string'] *)
Definition not_a_string (v : value) : bool :=
  match v with
  | VStr _ => false
  | _ => true
  end.

(** * Properties *)

(** ** Values and membership *)

Lemma strict_eq_str (a : value) (s : string) :
  strict_eq a (VStr s) = true <-> a = VStr s.
Proof.
  destruct a; simpl; try (split; [discriminate | discriminate]).
  rewrite String.eqb_eq. split; congruence.
Qed.

Lemma includes_spec (l : list value) (v : value) :
  includes l v = true <-> exists x, x ∈ l /\ strict_eq x v = true.
Proof.
  unfold includes. rewrite existsb_exists.
  split; intros (x & Hx & Heq); exists x; split; auto;
    by apply list_elem_of_In.
Qed.

Lemma includes_str (l : list value) (s : string) :
  includes l (VStr s) = true <-> VStr s ∈ l.
Proof.
  rewrite includes_spec. split.
  - intros (x & Hx & Heq). apply strict_eq_str in Heq. by subst.
  - intros Hin. exists (VStr s). split; [done | by apply strict_eq_str].
Qed.

Lemma elem_of_without (x v : value) (l : list value) :
  x ∈ without v l <-> x ∈ l /\ strict_eq x v = false.
Proof.
  unfold without. rewrite !list_elem_of_In, filter_In, negb_true_iff.
  done.
Qed.

Lemma without_absent (v : value) (l : list value) :
  includes l v = false -> without v l = l.
Proof.
  unfold includes, without. induction l as [|x l IH]; simpl; [done |].
  intros Hor. apply orb_false_iff in Hor as [Hx Hl].
  rewrite Hx. simpl. by rewrite IH.
Qed.

Lemma number_eqb_eq (x y : number) : number_eqb x y = true <-> x = y.
Proof.
  destruct x as [| s k e | s], y as [| s' k' e' | s']; simpl;
    try (split; [discriminate | discriminate]); try done.
  - rewrite !andb_true_iff, N.eqb_eq, Z.eqb_eq. split.
    + intros [[Hs%Bool.eqb_prop ->] ->]. by subst.
    + intros [= -> -> ->]. by rewrite Bool.eqb_reflx.
  - split.
    + intros Hs%Bool.eqb_prop. by subst.
    + intros [= ->]. apply Bool.eqb_reflx.
Qed.

Lemma json_field_idem (v : value) : json_field (json_field v) = json_field v.
Proof. by destruct v as [| | | [| |] | |]. Qed.

Lemma json_element_idem (v : value) :
  json_element (json_element v) = json_element v.
Proof. by destruct v as [| | | [| |] | |]. Qed.

Lemma json_comment_idem (c : Comment) : json_comment (json_comment c) = json_comment c.
Proof. destruct c. unfold json_comment. simpl. by rewrite !json_field_idem. Qed.

Lemma json_post_idem (p : Post) : json_post (json_post p) = json_post p.
Proof.
  destruct p as [? ? ? ? ? ? ? l d c]. unfold json_post. simpl.
  rewrite !json_field_idem.
  f_equal; [destruct l | destruct d | destruct c]; simpl; try done;
    f_equal; rewrite map_map; apply map_ext; intros;
    first [apply json_element_idem | apply json_comment_idem].
Qed.

(** ** Mutual exclusion of reactions *)

Lemma strict_eq_eq (a b : value) : strict_eq a b = true -> a = b.
Proof.
  destruct a, b; simpl; try discriminate; intros Heq; try reflexivity.
  - apply Bool.eqb_prop in Heq. by subst.
  - apply number_eqb_eq in Heq. by subst.
  - apply String.eqb_eq in Heq. by subst.
Qed.

Lemma includes_json (l : list value) (v : value) :
  v <> VNull -> includes (map json_element l) v = true -> includes l v = true.
Proof.
  intros Hv. rewrite !includes_spec. intros (y & Hy & Heq).
  apply list_elem_of_In, in_map_iff in Hy as (x & <- & Hx).
  exists x. split; [by apply list_elem_of_In |].
  destruct x as [| | | [| |] | |]; try exact Heq;
    apply strict_eq_eq in Heq; simpl in Heq; congruence.
Qed.

Lemma includes_without (l : list value) (u v : value) :
  includes (without u l) v = true -> includes l v = true.
Proof.
  rewrite !includes_spec. intros (x & Hx & Heq).
  apply elem_of_without in Hx as [Hx _]. eauto.
Qed.

Lemma includes_pushed (l : list value) (u v : value) :
  includes (l ++ [u]) v = true -> includes l v = true \/ u = v.
Proof.
  unfold includes. rewrite existsb_app. simpl. rewrite orb_false_r.
  intros [Hl | Hu]%orb_true_iff; [by left | right].
  by apply strict_eq_eq.
Qed.

Lemma liked_json_post (p : Post) :
  liked (json_post p) = map json_element (liked p).
Proof. unfold liked. simpl. by destruct (likedBy p). Qed.

Lemma disliked_json_post (p : Post) :
  disliked (json_post p) = map json_element (disliked p).
Proof. unfold disliked. simpl. by destruct (dislikedBy p). Qed.

Lemma exclusive_json_post (p : Post) : exclusive p -> exclusive (json_post p).
Proof.
  intros Hex v Hv [Hl Hd]. rewrite liked_json_post in Hl.
  rewrite disliked_json_post in Hd.
  apply (Hex v Hv). split; by apply includes_json.
Qed.

Lemma exclusive_set_comments (p : Post) (c : list Comment) :
  exclusive p -> exclusive (set_comments p c).
Proof. intros Hex v Hv. apply (Hex v Hv). Qed.

Lemma exclusive_toggle_like (p : Post) (userId : value) :
  exclusive p ->
  includes (disliked p) userId = false ->
  exclusive (set_reactions p
               (if includes (liked p) userId then without userId (liked p)
                else liked p ++ [userId])
               (disliked p)).
Proof.
  intros Hex Hno v Hv [Hl Hd].
  change (liked (set_reactions ?q ?l ?d)) with l in Hl.
  change (disliked (set_reactions ?q ?l ?d)) with d in Hd.
  apply (Hex v Hv). split; [| done].
  destruct (includes (liked p) userId).
  - by apply includes_without in Hl.
  - apply includes_pushed in Hl as [Hl | ->]; [done | congruence].
Qed.

Lemma exclusive_toggle_dislike (p : Post) (userId : value) :
  exclusive p ->
  includes (liked p) userId = false ->
  exclusive (set_reactions p (liked p)
               (if includes (disliked p) userId then without userId (disliked p)
                else disliked p ++ [userId])).
Proof.
  intros Hex Hno v Hv [Hl Hd].
  change (liked (set_reactions ?q ?l ?d)) with l in Hl.
  change (disliked (set_reactions ?q ?l ?d)) with d in Hd.
  apply (Hex v Hv). split; [done |].
  destruct (includes (disliked p) userId).
  - by apply includes_without in Hd.
  - apply includes_pushed in Hd as [Hd | ->]; [done | congruence].
Qed.

Lemma Forall_list_filter {A : Type} (P : A -> Prop) (f : A -> bool) (l : list A) :
  Forall P l -> Forall P (List.filter f l).
Proof.
  rewrite !Forall_forall. intros Hall x Hx.
  apply list_elem_of_In, filter_In in Hx as [Hx _].
  by apply Hall, list_elem_of_In.
Qed.

Lemma find_post_Some (postId : string) (posts : list Post) (i : nat) (p : Post) :
  find_post postId posts = Some (i, p) ->
  posts !! i = Some p /\ post_id p = postId.
Proof. unfold find_post. intros Hf. apply list_find_Some in Hf. tauto. Qed.

(** Every handler hands the writer a collection that is exclusive if the
    one it loaded was. *)
Lemma posts_handler_exclusive (e : env) (r : request) (posts posts' : list Post)
    (res : response) :
  posts_handler e r posts = Some (Done res (Some posts')) ->
  Forall exclusive posts -> Forall exclusive posts'.
Proof.
  intros Hh Hall. destruct r; simpl in Hh; try discriminate.
  - (* create *)
    unfold create_post in Hh.
    destruct (_ || _ || _) in Hh; [discriminate |].
    injection Hh as _ <-. apply Forall_app. split; [done |].
    apply Forall_singleton. intros v _ [Hl _]. discriminate.
  - (* delete *)
    unfold delete_post in Hh. destruct (Nat.ltb _ _) in Hh; [| discriminate].
    injection Hh as _ <-. by apply Forall_list_filter.
  - (* clear *)
    unfold clear_mine in Hh. destruct (Nat.ltb _ _) in Hh; [| discriminate].
    injection Hh as _ <-. by apply Forall_list_filter.
  - (* like *)
    unfold like_post in Hh.
    destruct (find_post postId posts) as [[i p]|] eqn:Hf; [| discriminate].
    apply find_post_Some in Hf as [Hi _].
    destruct (includes (disliked p) userId) eqn:Hd; [discriminate |].
    injection Hh as _ <-. apply Forall_insert; [done |].
    apply exclusive_toggle_like; [| done].
    eapply Forall_lookup_1; eauto.
  - (* dislike *)
    unfold dislike_post in Hh.
    destruct (find_post postId posts) as [[i p]|] eqn:Hf; [| discriminate].
    apply find_post_Some in Hf as [Hi _].
    destruct (includes (liked p) userId) eqn:Hl; [discriminate |].
    injection Hh as _ <-. apply Forall_insert; [done |].
    apply exclusive_toggle_dislike; [| done].
    eapply Forall_lookup_1; eauto.
  - (* comment *)
    unfold comment_post in Hh.
    destruct (find_post postId posts) as [[i p]|] eqn:Hf; [| discriminate].
    apply find_post_Some in Hf as [Hi _].
    destruct (_ || _ || _) in Hh; [discriminate |].
    injection Hh as _ <-. apply Forall_insert; [done |].
    apply exclusive_set_comments. eapply Forall_lookup_1; eauto.
Qed.

Lemma Forall_exclusive_json (posts : list Post) :
  Forall exclusive posts -> Forall exclusive (map json_post posts).
Proof.
  intros Hall. apply Forall_fmap. eapply Forall_impl; [exact Hall |].
  intros p. apply exclusive_json_post.
Qed.

Section ServerInvariant.
Context `{HashService}.

Lemma step_exclusive (e : env) (r : request) (s : store) :
  exclusive_store s -> exclusive_store (snd (step e r s)).
Proof.
  intros Hs. unfold step.
  destruct (posts_handler e r (rows (readPosts (posts_file s))))
    as [o|] eqn:Hh.
  - assert (exclusive_store
              (let '(res, f) := save_posts e o (posts_file s) in
               (res, mkStore f (users_file s))).2) as Hgoal.
    { destruct o as [res [posts'|]|]; simpl; try done.
      unfold writePosts. destruct (write_ok e); [| done].
      unfold exclusive_store. simpl. apply Forall_exclusive_json.
      eapply posts_handler_exclusive; eauto. }
    destruct r; simpl in Hh; try discriminate; exact Hgoal.
  - destruct r; simpl in Hh; try discriminate.
    + destruct (save_users e _ _) as [res f]. done.
    + destruct (save_users e _ _) as [res f]. done.
Qed.
End ServerInvariant.

(** X1. Mutual exclusion of reactions, for every value other than [null],
    is an invariant of the server: if no such value is in both [likedBy] and
    [dislikedBy] of any post of the stored collection, the same holds after
    any sequence of requests (like, dislike, create, comment, delete, clear,
    and the others), whatever their arguments and whether or not the writes
    complete. *)
Theorem reactions_exclusive `{HashService} (trace : list (env * request)) (s : store) :
  exclusive_store s -> exclusive_store (run trace s).
Proof.
  revert s. induction trace as [|[e r] trace IH]; intros s Hs; simpl.
  - exact Hs.
  - apply IH. by apply step_exclusive.
Qed.

Lemma reactions_exclusive_witness :
  exclusive_store fresh_store /\
  exclusive_store
    (@run toy_service
       [(mkEnv "p1" "2025-01-01T00:00:00.000Z" "" true,
         CreatePost (VStr "u1") (VStr "alice") (VStr "hi") VUndefined VUndefined);
        (mkEnv "" "" "" true, Like "p1" (VStr "u2"));
        (mkEnv "" "" "" true, Dislike "p1" (VStr "u2"));
        (mkEnv "" "" "" true, Dislike "p1" VUndefined)]
       fresh_store).
Proof.
  split.
  - constructor.
  - apply (@reactions_exclusive toy_service). constructor.
Defined.

(** ** Deleting posts *)

Lemma list_filter_sublist {A : Type} (f : A -> bool) (l : list A) :
  List.filter f l `sublist_of` l.
Proof.
  induction l as [|x l IH]; simpl; [constructor |].
  destruct (f x); by constructor.
Qed.

Lemma list_filter_all {A : Type} (f : A -> bool) (l : list A) :
  (forall x, x ∈ l -> f x = true) -> List.filter f l = l.
Proof.
  induction l as [|x l IH]; simpl; intros Hall; [done |].
  rewrite (Hall x) by constructor.
  f_equal. apply IH. intros y Hy. apply Hall. by constructor.
Qed.

Lemma list_filter_shorter {A : Type} (f : A -> bool) (l : list A) (x : A) :
  x ∈ l -> f x = false -> length (List.filter f l) < length l.
Proof.
  induction l as [|y l IH]; simpl; intros Hin Hx.
  - by apply elem_of_nil in Hin.
  - apply elem_of_cons in Hin as [-> | Hin].
    + rewrite Hx. pose proof (List.filter_length_le f l). lia.
    + specialize (IH Hin Hx). destruct (f y); simpl; lia.
Qed.


Section ServerSteps.
Context `{HashService}.

(** A request on the posts collection: the response is the handler's and
    the file changes only through the write the handler asked for. *)
Lemma step_posts (e : env) (r : request) (s : store) (res : response)
    (w : option (list Post)) :
  posts_handler e r (rows (readPosts (posts_file s))) = Some (Done res w) ->
  step e r s =
    (Some res,
     match w with
     | Some posts' => mkStore (writePosts (write_ok e) posts' (posts_file s)) (users_file s)
     | None => s
     end).
Proof.
  intros Hh. unfold step. rewrite Hh.
  destruct r; simpl in Hh; try discriminate;
    destruct w; simpl; try reflexivity; by destruct s.
Qed.
End ServerSteps.



(** ** Clearing a user's posts *)

(** C7. [clear_mine] removes every post whose [userId] is ([===]) the given
    one and no other, keeping the survivors in their order.  When no post
    matches, the answer is 404, nothing is written and the store is
    unchanged. *)
Theorem clear_mine_contract (userId : value) (posts : list Post) :
  let mine p := strict_eq (post_userId p) userId = true in
  ((forall p, p ∈ posts -> ~ mine p) ->
     clear_mine userId posts = Done no_posts_for_user None /\
     forall (H : HashService) (e : env) (s : store),
       rows (readPosts (posts_file s)) = posts ->
       step e (ClearMine userId) s = (Some no_posts_for_user, s)) /\
  ((exists p, p ∈ posts /\ mine p) ->
     exists posts',
       clear_mine userId posts
         = Done (reply 200 "Your posts cleared successfully.") (Some posts') /\
       (forall p, p ∈ posts' <-> p ∈ posts /\ ~ mine p) /\
       posts' `sublist_of` posts /\
       forall (H : HashService) (e : env) (s : store),
         rows (readPosts (posts_file s)) = posts -> write_ok e = true ->
         posts_file (snd (step e (ClearMine userId) s)) = Doc posts').
Proof.
  intros mine.
  assert (Hneg : forall p, negb (strict_eq (post_userId p) userId) = true <-> ~ mine p).
  { intros p. unfold mine. rewrite negb_true_iff.
    by destruct (strict_eq _ _). }
  split.
  - intros Hnone.
    assert (Hc : clear_mine userId posts = Done no_posts_for_user None).
    { unfold clear_mine.
      rewrite list_filter_all; [| intros p Hp; apply Hneg; auto].
      by rewrite Nat.ltb_irrefl. }
    split; [exact Hc |]. intros H e s Hrows.
    apply (step_posts e (ClearMine userId) s no_posts_for_user None).
    simpl. by rewrite Hrows, Hc.
  - intros (p & Hp & Hmine).
    assert (Hc : clear_mine userId posts
                 = Done (reply 200 "Your posts cleared successfully.")
                     (Some (List.filter
                              (fun q => negb (strict_eq (post_userId q) userId)) posts))).
    { unfold clear_mine.
      assert (Hlt : length (List.filter
                              (fun q => negb (strict_eq (post_userId q) userId)) posts)
                    < length posts).
      { apply (list_filter_shorter _ _ p Hp). unfold mine in Hmine. by rewrite Hmine. }
      apply Nat.ltb_lt in Hlt. by rewrite Hlt. }
    eexists. split; [exact Hc |]. split; [| split].
    + intros q. rewrite list_elem_of_In, filter_In, <- list_elem_of_In.
      by rewrite Hneg.
    + apply list_filter_sublist.
    + intros H e s Hrows Hok.
      rewrite (step_posts e (ClearMine userId) s _ _
                 ltac:(simpl; rewrite Hrows, Hc; reflexivity)).
      simpl. unfold writePosts. by rewrite Hok.
Qed.

Lemma clear_mine_contract_witness :
  clear_mine (VStr "u3")
    [sample_post "p0" "u2" [] []; sample_post "p1" "u1" [] []]
  = Done no_posts_for_user None /\
  exists posts',
    clear_mine (VStr "u1")
      [sample_post "p0" "u2" [] []; sample_post "p1" "u1" [] []]
    = Done (reply 200 "Your posts cleared successfully.") (Some posts') /\
    posts' `sublist_of` [sample_post "p0" "u2" [] []; sample_post "p1" "u1" [] []].
Proof.
  split.
  - apply (proj1 (clear_mine_contract (VStr "u3")
                    [sample_post "p0" "u2" [] []; sample_post "p1" "u1" [] []])).
    intros p Hp Hmine.
    apply elem_of_cons in Hp as [-> | Hp]; [discriminate |].
    apply list_elem_of_singleton in Hp. subst p. discriminate.
  - destruct (proj2 (clear_mine_contract (VStr "u1")
                       [sample_post "p0" "u2" [] []; sample_post "p1" "u1" [] []]))
      as (posts' & Hd & _ & Hsub & _).
    + exists (sample_post "p1" "u1" [] []). split; [| reflexivity].
      apply elem_of_cons. right. apply list_elem_of_singleton. reflexivity.
    + exists posts'. split; [exact Hd | exact Hsub].
Defined.

(** ** Toggles *)

(** C3. A rejected toggle is atomic.  When the post found for [postId] has
    [userId] in [dislikedBy] (as [includes] tests it; for an id string, list
    membership), a like is answered 400 "Remove your dislike first.", and
    when it has [userId] in [likedBy], a dislike is answered 400 "Please
    remove your like first."; either way the handler writes nothing and the
    store, hence every post's reaction sets, is as before. *)
Theorem rejected_toggle_atomic `{HashService} (e : env) (s : store)
    (postId : string) (userId : value) (postIndex : nat) (post : Post) :
  find_post postId (rows (readPosts (posts_file s))) = Some (postIndex, post) ->
  (includes (disliked post) userId = true ->
     like_post postId userId (rows (readPosts (posts_file s)))
       = Done remove_dislike_first None /\
     step e (Like postId userId) s = (Some remove_dislike_first, s)) /\
  (includes (liked post) userId = true ->
     dislike_post postId userId (rows (readPosts (posts_file s)))
       = Done remove_like_first None /\
     step e (Dislike postId userId) s = (Some remove_like_first, s)).
Proof.
  intros Hf. split; intros Hin.
  - assert (Hl : like_post postId userId (rows (readPosts (posts_file s)))
                 = Done remove_dislike_first None)
      by (unfold like_post; by rewrite Hf, Hin).
    split; [exact Hl |].
    apply (step_posts e (Like postId userId) s remove_dislike_first None).
    simpl. by rewrite Hl.
  - assert (Hd : dislike_post postId userId (rows (readPosts (posts_file s)))
                 = Done remove_like_first None)
      by (unfold dislike_post; by rewrite Hf, Hin).
    split; [exact Hd |].
    apply (step_posts e (Dislike postId userId) s remove_like_first None).
    simpl. by rewrite Hd.
Qed.

Lemma rejected_toggle_atomic_witness :
  let s := mkStore (Doc [sample_post "p1" "u1" [VStr "u2"] [VStr "u3"]]) NoFile in
  @step toy_service (sample_env "x") (Like "p1" (VStr "u3")) s
    = (Some remove_dislike_first, s) /\
  @step toy_service (sample_env "x") (Dislike "p1" (VStr "u2")) s
    = (Some remove_like_first, s).
Proof.
  intros s.
  pose proof (@rejected_toggle_atomic toy_service (sample_env "x") s "p1"
                (VStr "u3") 0 (sample_post "p1" "u1" [VStr "u2"] [VStr "u3"])
                eq_refl) as [Hlike _].
  pose proof (@rejected_toggle_atomic toy_service (sample_env "x") s "p1"
                (VStr "u2") 0 (sample_post "p1" "u1" [VStr "u2"] [VStr "u3"])
                eq_refl) as [_ Hdislike].
  split.
  - apply Hlike. reflexivity.
  - apply Hdislike. reflexivity.
Defined.

Lemma reaction_of_neutral (userId : value) (p : Post) :
  reaction_of userId p = Neutral <->
  includes (liked p) userId = false /\ includes (disliked p) userId = false.
Proof.
  unfold reaction_of.
  destruct (includes (liked p) userId), (includes (disliked p) userId);
    split; try discriminate; try tauto; intros [? ?]; discriminate.
Qed.

Lemma like_post_neutral (postId : string) (userId : value) (posts : list Post)
    (postIndex : nat) (post : Post) :
  find_post postId posts = Some (postIndex, post) ->
  reaction_of userId post = Neutral ->
  like_post postId userId posts
    = Done (reply 200 "Like status updated.")
        (Some (<[postIndex := set_reactions post (liked post ++ [userId]) (disliked post)]> posts)).
Proof.
  intros Hf [Hl Hd]%reaction_of_neutral. unfold like_post.
  by rewrite Hf, Hd, Hl.
Qed.

Lemma dislike_post_neutral (postId : string) (userId : value) (posts : list Post)
    (postIndex : nat) (post : Post) :
  find_post postId posts = Some (postIndex, post) ->
  reaction_of userId post = Neutral ->
  dislike_post postId userId posts
    = Done (reply 200 "Dislike status updated.")
        (Some (<[postIndex := set_reactions post (liked post) (disliked post ++ [userId])]> posts)).
Proof.
  intros Hf [Hl Hd]%reaction_of_neutral. unfold dislike_post.
  by rewrite Hf, Hl, Hd.
Qed.

(** C10. The toggles trust the caller's [userId].  For a post found and any
    value of [userId] that is in neither reaction set (a registered id or
    not, the empty string, or a missing field), a like is answered 200 and
    the handler appends exactly that value to the post's [likedBy], and a
    dislike likewise to [dislikedBy].  The response and the posts file after
    a toggle are the same whatever the users file holds. *)
Theorem toggles_trust_caller (postId : string) (userId : value) (posts : list Post)
    (postIndex : nat) (post : Post) :
  find_post postId posts = Some (postIndex, post) ->
  reaction_of userId post = Neutral ->
  like_post postId userId posts
    = Done (reply 200 "Like status updated.")
        (Some (<[postIndex := set_reactions post (liked post ++ [userId]) (disliked post)]> posts)) /\
  dislike_post postId userId posts
    = Done (reply 200 "Dislike status updated.")
        (Some (<[postIndex := set_reactions post (liked post) (disliked post ++ [userId])]> posts)) /\
  forall (H : HashService) (e : env) (f : file Post) (users users' : file User)
         (r : request),
    r = Like postId userId \/ r = Dislike postId userId ->
    fst (step e r (mkStore f users)) = fst (step e r (mkStore f users')) /\
    posts_file (snd (step e r (mkStore f users)))
      = posts_file (snd (step e r (mkStore f users'))) /\
    users_file (snd (step e r (mkStore f users))) = users.
Proof.
  intros Hf Hn. split; [by apply like_post_neutral |].
  split; [by apply dislike_post_neutral |].
  intros H e f users users' r [-> | ->]; unfold step; simpl.
  - destruct (save_posts e (like_post postId userId (rows (readPosts f))) f).
    done.
  - destruct (save_posts e (dislike_post postId userId (rows (readPosts f))) f).
    done.
Qed.

Lemma toggles_trust_caller_witness :
  like_post "p1" VUndefined [sample_post "p1" "u1" [VStr "u2"] []]
    = Done (reply 200 "Like status updated.")
        (Some [sample_post "p1" "u1" [VStr "u2"; VUndefined] []]) /\
  dislike_post "p1" (VStr "") [sample_post "p1" "u1" [VStr "u2"] []]
    = Done (reply 200 "Dislike status updated.")
        (Some [sample_post "p1" "u1" [VStr "u2"] [VStr ""]]).
Proof.
  split.
  - apply (toggles_trust_caller "p1" VUndefined
             [sample_post "p1" "u1" [VStr "u2"] []] 0
             (sample_post "p1" "u1" [VStr "u2"] [])); reflexivity.
  - apply (toggles_trust_caller "p1" (VStr "")
             [sample_post "p1" "u1" [VStr "u2"] []] 0
             (sample_post "p1" "u1" [VStr "u2"] [])); reflexivity.
Defined.

(** ** Toggling twice *)

Lemma rows_readPosts_json (f : file Post) :
  map json_post (rows (readPosts f)) = rows (readPosts f).
Proof.
  destruct f as [| code | | d]; unfold readPosts; simpl; try done.
  - by destruct (String.eqb code "ENOENT").
  - rewrite map_map. apply map_ext. intros p. apply json_post_idem.
Qed.

Lemma readPosts_Doc (d : list Post) : rows (readPosts (Doc d)) = map json_post d.
Proof. reflexivity. Qed.

Lemma map_insert {A B : Type} (f : A -> B) (l : list A) (i : nat) (x : A) :
  map f (<[i := x]> l) = <[i := f x]> (map f l).
Proof. apply (list_fmap_insert f l i x). Qed.

Lemma json_post_fixed_liked (p : Post) :
  json_post p = p -> map json_element (liked p) = liked p.
Proof. intros Hp. rewrite <- liked_json_post. by rewrite Hp. Qed.

Lemma json_post_fixed_disliked (p : Post) :
  json_post p = p -> map json_element (disliked p) = disliked p.
Proof. intros Hp. rewrite <- disliked_json_post. by rewrite Hp. Qed.

Lemma json_post_set_reactions (p : Post) (l d : list value) :
  json_post p = p ->
  json_post (set_reactions p l d)
    = set_reactions p (map json_element l) (map json_element d).
Proof.
  intros Hp.
  change (json_post (set_reactions p l d))
    with (set_reactions (json_post p) (map json_element l) (map json_element d)).
  by rewrite Hp.
Qed.

Lemma fixed_lookup (posts : list Post) (i : nat) (p : Post) :
  map json_post posts = posts -> posts !! i = Some p -> json_post p = p.
Proof.
  intros Hfix Hi.
  assert (Hi' : (map json_post posts) !! i = Some (json_post p))
    by (by rewrite list_lookup_fmap, Hi).
  rewrite Hfix, Hi in Hi'. congruence.
Qed.

Lemma find_post_insert (postId : string) (posts : list Post) (i : nat) (p q : Post) :
  find_post postId posts = Some (i, p) ->
  post_id q = postId ->
  find_post postId (<[i := q]> posts) = Some (i, q).
Proof.
  unfold find_post. intros (Hi & _ & Hleast)%list_find_Some Hq.
  apply list_find_insert_Some. right. left.
  split_and!; [done | done | by eapply lookup_lt_Some | done | done].
Qed.

Lemma includes_app (l k : list value) (v : value) :
  includes (l ++ k) v = includes l v || includes k v.
Proof. unfold includes. apply existsb_app. Qed.

Lemma without_pushed (l : list value) (v : value) :
  includes l v = false -> strict_eq v v = true -> without v (l ++ [v]) = l.
Proof.
  intros Hl Hv. unfold without. rewrite List.filter_app. simpl.
  rewrite Hv. simpl. rewrite app_nil_r. by apply without_absent.
Qed.

Section TwoToggles.
Context `{HashService}.

(** Reading back what a handler wrote. *)
Lemma step_posts_written (e : env) (r : request) (s : store) (res : response)
    (posts' : list Post) :
  posts_handler e r (rows (readPosts (posts_file s))) = Some (Done res (Some posts')) ->
  write_ok e = true ->
  step e r s = (Some res, mkStore (Doc posts') (users_file s)).
Proof.
  intros Hh Hok. rewrite (step_posts e r s res (Some posts') Hh).
  unfold writePosts. by rewrite Hok.
Qed.

(** A like that finds the user neutral stores the post with the value
    appended, as JSON writes it. *)
Lemma step_like_neutral (e : env) (s : store) (postId : string) (userId : value)
    (i : nat) (p : Post) :
  write_ok e = true ->
  find_post postId (rows (readPosts (posts_file s))) = Some (i, p) ->
  reaction_of userId p = Neutral ->
  exists s',
    step e (Like postId userId) s = (Some (reply 200 "Like status updated."), s') /\
    users_file s' = users_file s /\
    rows (readPosts (posts_file s'))
      = <[i := set_reactions p (liked p ++ [json_element userId]) (disliked p)]>
          (rows (readPosts (posts_file s))).
Proof.
  intros Hok Hf Hn. eexists. split; [| split].
  - apply step_posts_written; [| done]. simpl.
    by rewrite (like_post_neutral _ _ _ _ _ Hf Hn).
  - done.
  - cbn [posts_file]. rewrite readPosts_Doc, map_insert.
    destruct (find_post_Some _ _ _ _ Hf) as [Hi _].
    pose proof (fixed_lookup _ _ _ (rows_readPosts_json _) Hi) as Hp.
    rewrite rows_readPosts_json, json_post_set_reactions by exact Hp.
    rewrite map_app. simpl.
    by rewrite json_post_fixed_liked, json_post_fixed_disliked.
Qed.

Lemma step_dislike_neutral (e : env) (s : store) (postId : string) (userId : value)
    (i : nat) (p : Post) :
  write_ok e = true ->
  find_post postId (rows (readPosts (posts_file s))) = Some (i, p) ->
  reaction_of userId p = Neutral ->
  exists s',
    step e (Dislike postId userId) s
      = (Some (reply 200 "Dislike status updated."), s') /\
    users_file s' = users_file s /\
    rows (readPosts (posts_file s'))
      = <[i := set_reactions p (liked p) (disliked p ++ [json_element userId])]>
          (rows (readPosts (posts_file s))).
Proof.
  intros Hok Hf Hn. eexists. split; [| split].
  - apply step_posts_written; [| done]. simpl.
    by rewrite (dislike_post_neutral _ _ _ _ _ Hf Hn).
  - done.
  - cbn [posts_file]. rewrite readPosts_Doc, map_insert.
    destruct (find_post_Some _ _ _ _ Hf) as [Hi _].
    pose proof (fixed_lookup _ _ _ (rows_readPosts_json _) Hi) as Hp.
    rewrite rows_readPosts_json, json_post_set_reactions by exact Hp.
    rewrite map_app. simpl.
    by rewrite json_post_fixed_liked, json_post_fixed_disliked.
Qed.
End TwoToggles.

Lemma json_fixed_without (v : value) (l : list value) :
  map json_element l = l -> map json_element (without v l) = without v l.
Proof.
  unfold without. induction l as [|x l IH]; simpl; [done |].
  intros Hfix. injection Hfix as Hx Hl.
  destruct (negb (strict_eq x v)); simpl; [| by apply IH].
  by rewrite Hx, IH.
Qed.

Section Untoggle.
Context `{HashService}.

Lemma step_like_liked (e : env) (s : store) (postId : string) (userId : value)
    (i : nat) (p : Post) :
  write_ok e = true ->
  find_post postId (rows (readPosts (posts_file s))) = Some (i, p) ->
  includes (disliked p) userId = false ->
  includes (liked p) userId = true ->
  exists s',
    step e (Like postId userId) s = (Some (reply 200 "Like status updated."), s') /\
    rows (readPosts (posts_file s'))
      = <[i := set_reactions p (without userId (liked p)) (disliked p)]>
          (rows (readPosts (posts_file s))).
Proof.
  intros Hok Hf Hd Hl. eexists. split.
  - apply step_posts_written; [| done]. simpl.
    unfold like_post. by rewrite Hf, Hd, Hl.
  - cbn [posts_file]. rewrite readPosts_Doc, map_insert.
    destruct (find_post_Some _ _ _ _ Hf) as [Hi _].
    pose proof (fixed_lookup _ _ _ (rows_readPosts_json _) Hi) as Hp.
    rewrite rows_readPosts_json, json_post_set_reactions by exact Hp.
    rewrite json_fixed_without by (by apply json_post_fixed_liked).
    by rewrite json_post_fixed_disliked.
Qed.

Lemma step_dislike_disliked (e : env) (s : store) (postId : string) (userId : value)
    (i : nat) (p : Post) :
  write_ok e = true ->
  find_post postId (rows (readPosts (posts_file s))) = Some (i, p) ->
  includes (liked p) userId = false ->
  includes (disliked p) userId = true ->
  exists s',
    step e (Dislike postId userId) s
      = (Some (reply 200 "Dislike status updated."), s') /\
    rows (readPosts (posts_file s'))
      = <[i := set_reactions p (liked p) (without userId (disliked p))]>
          (rows (readPosts (posts_file s))).
Proof.
  intros Hok Hf Hl Hd. eexists. split.
  - apply step_posts_written; [| done]. simpl.
    unfold dislike_post. by rewrite Hf, Hl, Hd.
  - cbn [posts_file]. rewrite readPosts_Doc, map_insert.
    destruct (find_post_Some _ _ _ _ Hf) as [Hi _].
    pose proof (fixed_lookup _ _ _ (rows_readPosts_json _) Hi) as Hp.
    rewrite rows_readPosts_json, json_post_set_reactions by exact Hp.
    rewrite json_fixed_without by (by apply json_post_fixed_disliked).
    by rewrite json_post_fixed_liked.
Qed.

(** Like twice, from neutral, for a value that JSON keeps and [===]
    recognises. *)
Lemma like_twice (e1 e2 : env) (s : store) (postId : string) (userId : value)
    (i : nat) (p : Post) :
  write_ok e1 = true -> write_ok e2 = true ->
  json_element userId = userId -> strict_eq userId userId = true ->
  find_post postId (rows (readPosts (posts_file s))) = Some (i, p) ->
  reaction_of userId p = Neutral ->
  exists p1 p2,
    find_post postId
      (rows (readPosts (posts_file (run [(e1, Like postId userId)] s))))
      = Some (i, p1) /\
    reaction_of userId p1 = Liked /\
    find_post postId
      (rows (readPosts (posts_file
         (run [(e1, Like postId userId); (e2, Like postId userId)] s))))
      = Some (i, p2) /\
    reaction_of userId p2 = Neutral /\
    liked p2 = liked p /\ disliked p2 = disliked p.
Proof.
  intros Hok1 Hok2 Hjson Hrefl Hf Hn.
  destruct (step_like_neutral e1 s postId userId i p Hok1 Hf Hn)
    as (s1 & Hs1 & _ & Hrows1).
  rewrite Hjson in Hrows1.
  set (p1 := set_reactions p (liked p ++ [userId]) (disliked p)) in *.
  assert (Hid : post_id p1 = postId) by (by destruct (find_post_Some _ _ _ _ Hf)).
  assert (Hf1 : find_post postId (rows (readPosts (posts_file s1))) = Some (i, p1))
    by (rewrite Hrows1; by apply (find_post_insert _ _ _ p)).
  apply reaction_of_neutral in Hn as [Hl Hd].
  assert (Hl1 : includes (liked p1) userId = true).
  { change (liked p1) with (liked p ++ [userId]). rewrite includes_app. simpl.
    rewrite Hrefl. by rewrite orb_true_r. }
  destruct (step_like_liked e2 s1 postId userId i p1 Hok2 Hf1 Hd Hl1)
    as (s2 & Hs2 & Hrows2).
  exists p1, (set_reactions p1 (without userId (liked p1)) (disliked p1)).
  cbn [run]. rewrite Hs1. cbn [snd]. rewrite Hs2. cbn [snd].
  split; [done |]. split; [unfold reaction_of; by rewrite Hl1 |].
  split; [rewrite Hrows2; by apply (find_post_insert _ _ _ p1) |].
  assert (Hback : without userId (liked p1) = liked p)
    by (by apply without_pushed).
  rewrite Hback. split; [| split; reflexivity].
  apply reaction_of_neutral. split; [exact Hl | exact Hd].
Qed.

Lemma dislike_twice (e1 e2 : env) (s : store) (postId : string) (userId : value)
    (i : nat) (p : Post) :
  write_ok e1 = true -> write_ok e2 = true ->
  json_element userId = userId -> strict_eq userId userId = true ->
  find_post postId (rows (readPosts (posts_file s))) = Some (i, p) ->
  reaction_of userId p = Neutral ->
  exists p1 p2,
    find_post postId
      (rows (readPosts (posts_file (run [(e1, Dislike postId userId)] s))))
      = Some (i, p1) /\
    reaction_of userId p1 = Disliked /\
    find_post postId
      (rows (readPosts (posts_file
         (run [(e1, Dislike postId userId); (e2, Dislike postId userId)] s))))
      = Some (i, p2) /\
    reaction_of userId p2 = Neutral /\
    liked p2 = liked p /\ disliked p2 = disliked p.
Proof.
  intros Hok1 Hok2 Hjson Hrefl Hf Hn.
  destruct (step_dislike_neutral e1 s postId userId i p Hok1 Hf Hn)
    as (s1 & Hs1 & _ & Hrows1).
  rewrite Hjson in Hrows1.
  set (p1 := set_reactions p (liked p) (disliked p ++ [userId])) in *.
  assert (Hid : post_id p1 = postId) by (by destruct (find_post_Some _ _ _ _ Hf)).
  assert (Hf1 : find_post postId (rows (readPosts (posts_file s1))) = Some (i, p1))
    by (rewrite Hrows1; by apply (find_post_insert _ _ _ p)).
  apply reaction_of_neutral in Hn as [Hl Hd].
  assert (Hd1 : includes (disliked p1) userId = true).
  { change (disliked p1) with (disliked p ++ [userId]). rewrite includes_app. simpl.
    rewrite Hrefl. by rewrite orb_true_r. }
  destruct (step_dislike_disliked e2 s1 postId userId i p1 Hok2 Hf1 Hl Hd1)
    as (s2 & Hs2 & Hrows2).
  exists p1, (set_reactions p1 (liked p1) (without userId (disliked p1))).
  cbn [run]. rewrite Hs1. cbn [snd]. rewrite Hs2. cbn [snd].
  split; [done |].
  split; [unfold reaction_of; change (liked p1) with (liked p); by rewrite Hl, Hd1 |].
  split; [rewrite Hrows2; by apply (find_post_insert _ _ _ p1) |].
  assert (Hback : without userId (disliked p1) = disliked p)
    by (by apply without_pushed).
  rewrite Hback. split; [| split; reflexivity].
  apply reaction_of_neutral. split; [exact Hl | exact Hd].
Qed.
End Untoggle.

Lemma primitive_spec (v : value) :
  primitive v = true -> json_element v = v /\ strict_eq v v = true.
Proof.
  destruct v as [| | b | n | s |]; try discriminate; intros Hp.
  - done.
  - split; [done | apply Bool.eqb_reflx].
  - split; [by destruct n | by apply number_eqb_eq].
  - split; [done | apply String.eqb_refl].
Qed.

(** X2. Toggling twice returns to neutral, for a [userId] that is a
    string, a finite number, a boolean or [null].  For a post found for [postId]
    and such a value in neither of its reaction sets, two likes in
    succession (each persisted) make the user liked and then neutral again,
    and the post's [likedBy] and [dislikedBy] are then what they were; two
    dislikes likewise. *)
Theorem toggle_twice_neutral `{HashService} (e1 e2 : env) (s : store)
    (postId : string) (userId : value) (postIndex : nat) (post : Post) :
  primitive userId = true ->
  write_ok e1 = true -> write_ok e2 = true ->
  find_post postId (rows (readPosts (posts_file s))) = Some (postIndex, post) ->
  reaction_of userId post = Neutral ->
  (exists p1 p2,
     find_post postId
       (rows (readPosts (posts_file (run [(e1, Like postId userId)] s))))
       = Some (postIndex, p1) /\
     reaction_of userId p1 = Liked /\
     find_post postId
       (rows (readPosts (posts_file
          (run [(e1, Like postId userId); (e2, Like postId userId)] s))))
       = Some (postIndex, p2) /\
     reaction_of userId p2 = Neutral /\
     liked p2 = liked post /\ disliked p2 = disliked post) /\
  (exists p1 p2,
     find_post postId
       (rows (readPosts (posts_file (run [(e1, Dislike postId userId)] s))))
       = Some (postIndex, p1) /\
     reaction_of userId p1 = Disliked /\
     find_post postId
       (rows (readPosts (posts_file
          (run [(e1, Dislike postId userId); (e2, Dislike postId userId)] s))))
       = Some (postIndex, p2) /\
     reaction_of userId p2 = Neutral /\
     liked p2 = liked post /\ disliked p2 = disliked post).
Proof.
  intros [Hjson Hrefl]%primitive_spec Hok1 Hok2 Hf Hn.
  split.
  - by apply like_twice.
  - by apply dislike_twice.
Qed.

Lemma toggle_twice_neutral_witness :
  exists p2,
    find_post "p1"
      (rows (readPosts (posts_file
         (@run toy_service
            [(sample_env "a", Like "p1" (VStr "u2"));
             (sample_env "b", Like "p1" (VStr "u2"))]
            (mkStore (Doc [sample_post "p1" "u1" [VStr "u3"] []]) NoFile)))))
      = Some (0, p2) /\
    liked p2 = [VStr "u3"] /\ disliked p2 = [].
Proof.
  destruct (@toggle_twice_neutral toy_service (sample_env "a") (sample_env "b")
              (mkStore (Doc [sample_post "p1" "u1" [VStr "u3"] []]) NoFile)
              "p1" (VStr "u2") 0 (sample_post "p1" "u1" [VStr "u3"] [])
              eq_refl eq_refl eq_refl eq_refl eq_refl)
    as [(p1 & p2 & _ & _ & Hf & _ & Hl & Hd) _].
  exists p2. split; [exact Hf |]. split; [exact Hl | exact Hd].
Defined.

(** ** Toggles without a [userId] *)

Lemma json_fixed_no_undefined (l : list value) :
  map json_element l = l -> includes l VUndefined = false.
Proof.
  induction l as [|x l IH]; simpl; [done |].
  intros Hfix. injection Hfix as Hx Hl. rewrite (IH Hl).
  by destruct x.
Qed.

Lemma loaded_neutral_for_undefined (f : file Post) (postId : string) (i : nat) (p : Post) :
  find_post postId (rows (readPosts f)) = Some (i, p) ->
  map json_element (liked p) = liked p /\
  map json_element (disliked p) = disliked p /\
  reaction_of VUndefined p = Neutral.
Proof.
  intros [Hi _]%find_post_Some.
  pose proof (fixed_lookup _ _ _ (rows_readPosts_json _) Hi) as Hp.
  pose proof (json_post_fixed_liked _ Hp) as Hl.
  pose proof (json_post_fixed_disliked _ Hp) as Hd.
  split; [done |]. split; [done |].
  apply reaction_of_neutral. split; by apply json_fixed_no_undefined.
Qed.

(** C4. At a like without [userId] the claim fails: the user is in neither
    reaction set of the post found, two likes in succession (each persisted)
    are both accepted and leave the user in neither set, yet [likedBy] is
    not what it was: it has gained two [null] entries. *)
Theorem missing_userId_likes_pile_up `{HashService} (e1 e2 : env) (s : store)
    (postId : string) (postIndex : nat) (post : Post) :
  write_ok e1 = true -> write_ok e2 = true ->
  find_post postId (rows (readPosts (posts_file s))) = Some (postIndex, post) ->
  reaction_of VUndefined post = Neutral /\
  exists p2,
    find_post postId
      (rows (readPosts (posts_file
         (run [(e1, Like postId VUndefined); (e2, Like postId VUndefined)] s))))
      = Some (postIndex, p2) /\
    reaction_of VUndefined p2 = Neutral /\
    liked p2 = liked post ++ [VNull; VNull] /\
    liked p2 <> liked post.
Proof.
  intros Hok1 Hok2 Hf.
  destruct (loaded_neutral_for_undefined _ _ _ _ Hf) as (_ & _ & Hn).
  split; [exact Hn |].
  assert (Hid : post_id post = postId) by (by destruct (find_post_Some _ _ _ _ Hf)).
  destruct (step_like_neutral e1 s postId VUndefined postIndex post Hok1 Hf Hn)
    as (s1 & Hs1 & _ & Hrows1).
  set (p1 := set_reactions post (liked post ++ [json_element VUndefined]) (disliked post))
    in *.
  assert (Hf1 : find_post postId (rows (readPosts (posts_file s1))) = Some (postIndex, p1)).
  { rewrite Hrows1. by apply (find_post_insert _ _ _ post). }
  destruct (loaded_neutral_for_undefined _ _ _ _ Hf1) as (_ & _ & Hn1).
  destruct (step_like_neutral e2 s1 postId VUndefined postIndex p1 Hok2 Hf1 Hn1)
    as (s2 & Hs2 & _ & Hrows2).
  exists (set_reactions p1 (liked p1 ++ [json_element VUndefined]) (disliked p1)).
  cbn [run]. rewrite Hs1. cbn [snd]. rewrite Hs2. cbn [snd].
  split; [rewrite Hrows2; apply (find_post_insert _ _ _ p1); [exact Hf1 | exact Hid] |].
  assert (Hl2 : liked (set_reactions p1 (liked p1 ++ [json_element VUndefined]) (disliked p1))
                = liked post ++ [VNull; VNull]).
  { change ((liked post ++ [VNull]) ++ [VNull] = liked post ++ [VNull; VNull]).
    by rewrite <- app_assoc. }
  rewrite Hl2. split; [| split; [done |]].
  - apply reaction_of_neutral. rewrite Hl2.
    apply reaction_of_neutral in Hn as [Hl Hd].
    split; [| exact Hd].
    rewrite includes_app, Hl. reflexivity.
  - intros Heq. apply (f_equal length) in Heq.
    rewrite length_app in Heq. simpl in Heq. lia.
Qed.

Lemma missing_userId_likes_pile_up_witness :
  exists p2,
    find_post "p1"
      (rows (readPosts (posts_file
         (@run toy_service
            [(sample_env "a", Like "p1" VUndefined);
             (sample_env "b", Like "p1" VUndefined)]
            (mkStore (Doc [sample_post "p1" "u1" [] []]) NoFile)))))
      = Some (0, p2) /\
    liked p2 = [VNull; VNull].
Proof.
  destruct (@missing_userId_likes_pile_up toy_service (sample_env "a") (sample_env "b")
              (mkStore (Doc [sample_post "p1" "u1" [] []]) NoFile)
              "p1" 0 (sample_post "p1" "u1" [] []) eq_refl eq_refl eq_refl)
    as (_ & p2 & Hf & _ & Hl & _).
  exists p2. split; [exact Hf | exact Hl].
Defined.

(** C1. At a like followed by a dislike, both without [userId], the claim
    fails: both are accepted (the dislike is not rejected), and the post
    found then has [null] in both [likedBy] and [dislikedBy]. *)
Theorem missing_userId_in_both_sets `{HashService} (e1 e2 : env) (s : store)
    (postId : string) (postIndex : nat) (post : Post) :
  write_ok e1 = true -> write_ok e2 = true ->
  find_post postId (rows (readPosts (posts_file s))) = Some (postIndex, post) ->
  exists s1 p2,
    step e1 (Like postId VUndefined) s
      = (Some (reply 200 "Like status updated."), s1) /\
    fst (step e2 (Dislike postId VUndefined) s1)
      = Some (reply 200 "Dislike status updated.") /\
    find_post postId
      (rows (readPosts (posts_file (snd (step e2 (Dislike postId VUndefined) s1)))))
      = Some (postIndex, p2) /\
    includes (liked p2) VNull = true /\
    includes (disliked p2) VNull = true /\
    ~ exclusive_all p2.
Proof.
  intros Hok1 Hok2 Hf.
  destruct (loaded_neutral_for_undefined _ _ _ _ Hf) as (_ & _ & Hn).
  assert (Hid : post_id post = postId) by (by destruct (find_post_Some _ _ _ _ Hf)).
  destruct (step_like_neutral e1 s postId VUndefined postIndex post Hok1 Hf Hn)
    as (s1 & Hs1 & _ & Hrows1).
  set (p1 := set_reactions post (liked post ++ [json_element VUndefined]) (disliked post))
    in *.
  assert (Hf1 : find_post postId (rows (readPosts (posts_file s1))) = Some (postIndex, p1)).
  { rewrite Hrows1. by apply (find_post_insert _ _ _ post). }
  destruct (loaded_neutral_for_undefined _ _ _ _ Hf1) as (_ & _ & Hn1).
  destruct (step_dislike_neutral e2 s1 postId VUndefined postIndex p1 Hok2 Hf1 Hn1)
    as (s2 & Hs2 & _ & Hrows2).
  exists s1, (set_reactions p1 (liked p1) (disliked p1 ++ [json_element VUndefined])).
  rewrite Hs2. cbn [fst snd].
  split; [exact Hs1 |]. split; [reflexivity |].
  split; [rewrite Hrows2; apply (find_post_insert _ _ _ p1); [exact Hf1 | exact Hid] |].
  assert (Hl : includes (liked (set_reactions p1 (liked p1)
                                  (disliked p1 ++ [json_element VUndefined]))) VNull = true).
  { change (includes (liked post ++ [VNull]) VNull = true).
    rewrite includes_app. simpl. apply orb_true_r. }
  assert (Hd : includes (disliked (set_reactions p1 (liked p1)
                                     (disliked p1 ++ [json_element VUndefined]))) VNull = true).
  { change (includes (disliked post ++ [VNull]) VNull = true).
    rewrite includes_app. simpl. apply orb_true_r. }
  split; [exact Hl |]. split; [exact Hd |].
  intros Hex. by apply (Hex VNull).
Qed.

Lemma missing_userId_in_both_sets_witness :
  exists p2,
    find_post "p1"
      (rows (readPosts (posts_file
         (@run toy_service
            [(sample_env "p1",
              CreatePost (VStr "u1") (VStr "alice") (VStr "hi") VUndefined VUndefined);
             (sample_env "a", Like "p1" VUndefined);
             (sample_env "b", Dislike "p1" VUndefined)]
            fresh_store))))
      = Some (0, p2) /\
    includes (liked p2) VNull = true /\ includes (disliked p2) VNull = true.
Proof.
  destruct (@missing_userId_in_both_sets toy_service (sample_env "a") (sample_env "b")
              (@run toy_service
                 [(sample_env "p1",
                   CreatePost (VStr "u1") (VStr "alice") (VStr "hi") VUndefined VUndefined)]
                 fresh_store)
              "p1" 0
              (mkPost "p1" (VStr "u1") (VStr "alice") (VStr "hi") VNull VNull
                      "2025-01-02T00:00:00.000Z" (Some []) (Some []) (Some []))
              eq_refl eq_refl eq_refl)
    as (s1 & p2 & Hs1 & _ & Hf & Hl & Hd & _).
  exists p2. split; [| split; [exact Hl | exact Hd]].
  apply (f_equal snd) in Hs1. cbn [snd] in Hs1. subst s1. exact Hf.
Defined.

(** ** Registration and login *)

Lemma blank_not_empty (s : string) : blank s = false -> truthy (VStr s) = true.
Proof. destruct s; [discriminate | reflexivity]. Qed.

Lemma check_credentials_accepted (username password : string) :
  blank username = false -> blank password = false ->
  check_credentials (VStr username) (VStr password) = Accepted username password.
Proof.
  intros Hu Hp. unfold check_credentials.
  rewrite (blank_not_empty _ Hu), (blank_not_empty _ Hp). simpl.
  by rewrite Hu, Hp.
Qed.

Lemma existsb_none {A : Type} (f : A -> bool) (l : list A) :
  (forall x, x ∈ l -> f x = false) -> existsb f l = false.
Proof.
  induction l as [|x l IH]; simpl; intros Hall; [done |].
  rewrite (Hall x) by constructor. simpl.
  apply IH. intros y Hy. apply Hall. by constructor.
Qed.

Lemma find_pushed {A : Type} (f : A -> bool) (l : list A) (x : A) :
  (forall y, y ∈ l -> f y = false) -> f x = true ->
  List.find f (l ++ [x]) = Some x.
Proof.
  induction l as [|y l IH]; simpl; intros Hall Hx.
  - by rewrite Hx.
  - rewrite (Hall y) by constructor.
    apply IH; [| done]. intros z Hz. apply Hall. by constructor.
Qed.

Lemma find_none {A : Type} (f : A -> bool) (l : list A) :
  (forall y, y ∈ l -> f y = false) -> List.find f l = None.
Proof.
  induction l as [|y l IH]; simpl; intros Hall; [done |].
  rewrite (Hall y) by constructor.
  apply IH. intros z Hz. apply Hall. by constructor.
Qed.

Lemma readUsers_Doc (d : list User) : rows (readUsers (Doc d)) = d.
Proof. unfold readUsers. simpl. apply map_id. Qed.

Lemma other_name (name : string) (l : list User) :
  (forall user, user ∈ l -> user_username user <> name) ->
  forall user, user ∈ l -> String.eqb (user_username user) name = false.
Proof. intros Hall user Hin. apply String.eqb_neq. by apply Hall. Qed.

Section Accounts.
Context `{HashService}.

(** A request on the users collection that writes nothing. *)
Lemma step_login (e : env) (s : store) (username password : value) (res : response) :
  login username password (rows (readUsers (users_file s))) = Done res None ->
  step e (Login username password) s = (Some res, s).
Proof. intros Hl. unfold step. rewrite Hl. simpl. by destruct s. Qed.

(** C5. Registration then login.  For a username and a password that are
    not blank, and a users collection with no record of that username,
    signup answers 201 with the fresh id, and (the write done) a login with
    the same credentials answers 200 with that same id; provided the hash
    service returns a hash for the password and verifies the password
    against that hash. *)
Theorem register_then_authenticate (e1 e2 : env) (s : store)
    (username password hashed : string) :
  blank username = false ->
  blank password = false ->
  (forall user, user ∈ rows (readUsers (users_file s)) ->
                user_username user <> username) ->
  bcrypt_hash password 10 (salt e1) = Some hashed ->
  bcrypt_compare password hashed = Some true ->
  write_ok e1 = true ->
  exists s1,
    step e1 (Signup (VStr username) (VStr password)) s
      = (Some (mkResponse 201
                 (Session (uuid e1) username "User registered successfully!")),
         s1) /\
    step e2 (Login (VStr username) (VStr password)) s1
      = (Some (mkResponse 200
                 (Session (uuid e1) username "Logged in successfully!")),
         s1).
Proof.
  intros Hu Hp Hfree Hhash Hverify Hok.
  pose proof (other_name _ _ Hfree) as Hother.
  exists (mkStore (posts_file s)
            (Doc (rows (readUsers (users_file s))
                  ++ [mkUser (uuid e1) username hashed]))).
  split.
  - unfold step, signup. rewrite (check_credentials_accepted _ _ Hu Hp).
    rewrite (existsb_none _ _ Hother), Hhash. simpl.
    unfold writeUsers. by rewrite Hok.
  - apply step_login. cbn [users_file]. rewrite readUsers_Doc.
    unfold login. rewrite (check_credentials_accepted _ _ Hu Hp).
    rewrite (find_pushed _ _ (mkUser (uuid e1) username hashed) Hother)
      by apply String.eqb_refl.
    simpl. by rewrite Hverify.
Qed.

(** C9. A failed login does not tell why.  On one users collection, a
    login under a username no record has and a login under a username
    whose record the hash service does not verify the password against are
    both answered 401 "Invalid username or password.", and neither changes
    the store. *)
Theorem login_failure_uniform (e1 e2 : env) (s : store)
    (unknown password1 known password2 : string) (user : User) :
  blank unknown = false -> blank password1 = false ->
  blank known = false -> blank password2 = false ->
  (forall u, u ∈ rows (readUsers (users_file s)) -> user_username u <> unknown) ->
  List.find (fun u => String.eqb (user_username u) known)
            (rows (readUsers (users_file s))) = Some user ->
  bcrypt_compare password2 (passwordHash user) = Some false ->
  step e1 (Login (VStr unknown) (VStr password1)) s = (Some invalid_login, s) /\
  step e2 (Login (VStr known) (VStr password2)) s = (Some invalid_login, s).
Proof.
  intros Hu1 Hp1 Hu2 Hp2 Habsent Hfound Hwrong. split; apply step_login.
  - unfold login. rewrite (check_credentials_accepted _ _ Hu1 Hp1).
    by rewrite (find_none _ _ (other_name _ _ Habsent)).
  - unfold login. rewrite (check_credentials_accepted _ _ Hu2 Hp2).
    by rewrite Hfound, Hwrong.
Qed.
End Accounts.

Lemma register_then_authenticate_witness :
  exists s1,
    @step toy_service (sample_env "id-1") (Signup (VStr "alice") (VStr "pw1")) fresh_store
      = (Some (mkResponse 201 (Session "id-1" "alice" "User registered successfully!")),
         s1) /\
    @step toy_service (sample_env "id-2") (Login (VStr "alice") (VStr "pw1")) s1
      = (Some (mkResponse 200 (Session "id-1" "alice" "Logged in successfully!")), s1).
Proof.
  apply (@register_then_authenticate toy_service (sample_env "id-1") (sample_env "id-2")
           fresh_store "alice" "pw1" "salt$pw1");
    try reflexivity.
  intros user Hin. simpl in Hin. by apply elem_of_nil in Hin.
Defined.

Lemma login_failure_uniform_witness :
  let s := mkStore NoFile (Doc [mkUser "id-1" "alice" "salt$pw1"]) in
  @step toy_service (sample_env "x") (Login (VStr "bob") (VStr "pw1")) s
    = (Some invalid_login, s) /\
  @step toy_service (sample_env "y") (Login (VStr "alice") (VStr "guess")) s
    = (Some invalid_login, s).
Proof.
  intros s.
  apply (@login_failure_uniform toy_service (sample_env "x") (sample_env "y") s
           "bob" "pw1" "alice" "guess" (mkUser "id-1" "alice" "salt$pw1"));
    try reflexivity.
  intros u Hin. simpl in Hin. apply list_elem_of_singleton in Hin. subst u.
  discriminate.
Defined.

(** ** Creating posts *)

(** C6. [create_post] answers 400 and writes nothing exactly when [userId]
    is missing or empty (falsy), or [username] is, or [content], [image] and
    [video] all are.  Otherwise it answers 201 with the new post, which
    carries the id drawn by [uuidv4()], the current timestamp and empty
    [likedBy], [dislikedBy] and [comments], and it hands the writer the
    collection with that post appended, which a completed write stores. *)
Theorem create_post_contract (e : env) (userId username content image video : value)
    (posts : list Post) :
  let missing :=
    truthy userId = false \/ truthy username = false \/
    (truthy content = false /\ truthy image = false /\ truthy video = false) in
  let newPost :=
    mkPost (uuid e) userId username (or_else content (VStr ""))
           (or_else image VNull) (or_else video VNull) (now e)
           (Some []) (Some []) (Some []) in
  (create_post e userId username content image video posts
     = Done missing_post_data None <-> missing) /\
  (~ missing ->
     create_post e userId username content image video posts
       = Done (mkResponse 201 (PostJson newPost)) (Some (posts ++ [newPost])) /\
     forall (H : HashService) (s : store),
       rows (readPosts (posts_file s)) = posts -> write_ok e = true ->
       step e (CreatePost userId username content image video) s
         = (Some (mkResponse 201 (PostJson newPost)),
            mkStore (Doc (posts ++ [newPost])) (users_file s))).
Proof.
  intros missing newPost.
  assert (Hguard :
    negb (truthy userId) || negb (truthy username)
    || (negb (truthy content) && negb (truthy image) && negb (truthy video)) = true
    <-> missing).
  { unfold missing. rewrite !orb_true_iff, !andb_true_iff, !negb_true_iff. tauto. }
  split; [split |].
  - intros Hc. apply Hguard. unfold create_post in Hc.
    destruct (_ || _ || _); [done | discriminate].
  - intros Hm. apply Hguard in Hm. unfold create_post. by rewrite Hm.
  - intros Hm.
    assert (Hc : create_post e userId username content image video posts
                 = Done (mkResponse 201 (PostJson newPost)) (Some (posts ++ [newPost]))).
    { unfold create_post.
      destruct (_ || _ || _) eqn:Hg; [| reflexivity].
      exfalso. apply Hm. by apply Hguard. }
    split; [exact Hc |]. intros H s Hrows Hok.
    apply step_posts_written; [| done]. simpl. by rewrite Hrows, Hc.
Qed.

Lemma create_post_contract_witness :
  create_post (sample_env "p9") (VStr "u1") (VStr "alice") VUndefined
              (VStr "data:image/png;base64,AAAA") VUndefined []
  = Done (mkResponse 201
            (PostJson (mkPost "p9" (VStr "u1") (VStr "alice") (VStr "")
                              (VStr "data:image/png;base64,AAAA") VNull
                              "2025-01-02T00:00:00.000Z" (Some []) (Some []) (Some []))))
         (Some [mkPost "p9" (VStr "u1") (VStr "alice") (VStr "")
                       (VStr "data:image/png;base64,AAAA") VNull
                       "2025-01-02T00:00:00.000Z" (Some []) (Some []) (Some [])]) /\
  create_post (sample_env "p9") (VStr "u1") (VStr "alice") (VStr "") VNull VUndefined []
  = Done missing_post_data None.
Proof.
  split.
  - apply (proj2 (create_post_contract (sample_env "p9") (VStr "u1") (VStr "alice")
                    VUndefined (VStr "data:image/png;base64,AAAA") VUndefined [])).
    intros [Hm | [Hm | (_ & Hm & _)]]; discriminate.
  - apply (proj1 (create_post_contract (sample_env "p9") (VStr "u1") (VStr "alice")
                    (VStr "") VNull VUndefined [])).
    right. right. repeat split.
Defined.

(** ** Loading *)

Lemma load_cases {A : Type} (read : A -> A) (f : Disk.state A) :
  exists logged,
    Disk.load read f
    = inr (match f with
           | Disk.Holds (Disk.ArrayText d) => Disk.Rows (map read d)
           | Disk.Holds (Disk.OtherText v) => Disk.NotRows v
           | _ => Disk.Rows []
           end, logged).
Proof.
  destruct f as [| code | [| d | v]]; unfold Disk.load; simpl; eauto.
  destruct (String.eqb code "ENOENT"); eauto.
Qed.

(** C8. Loading is fail-open, the claim as amended.  In every state of
    their file [readPosts] and [readUsers] return to the caller and throw
    nothing.  They return the empty list whenever the read or the parse
    throws (the file does not exist, cannot be read, or is not JSON).
    Otherwise they return what [JSON.parse] returned, as it is: the stored
    list when the file holds an array, and a value that is not a list when
    the file holds other JSON.  On the states of [file], which are the ones
    the writers leave, they are the loaders [step] uses. *)
Theorem load_fail_open :
  (forall f : Disk.state Post, exists r, Disk.readPosts f = inr r) /\
  (forall f : Disk.state User, exists r, Disk.readUsers f = inr r) /\
  (forall (f : Disk.state Post) (error : exn),
     Disk.readFile f = inl error \/
     (exists data, Disk.readFile f = inr data /\
                   Disk.JSON_parse json_post data = inl error) ->
     exists logged, Disk.readPosts f = inr (Disk.Rows [], logged)) /\
  (forall (f : Disk.state User) (error : exn),
     Disk.readFile f = inl error \/
     (exists data, Disk.readFile f = inr data /\
                   Disk.JSON_parse (fun user => user) data = inl error) ->
     exists logged, Disk.readUsers f = inr (Disk.Rows [], logged)) /\
  (forall (f : Disk.state Post) data collection,
     Disk.readFile f = inr data ->
     Disk.JSON_parse json_post data = inr collection ->
     Disk.readPosts f = inr (collection, false)) /\
  (forall (f : Disk.state User) data collection,
     Disk.readFile f = inr data ->
     Disk.JSON_parse (fun user => user) data = inr collection ->
     Disk.readUsers f = inr (collection, false)) /\
  (forall f : file Post,
     Disk.readPosts (Disk.of_file f)
     = inr (Disk.Rows (rows (readPosts f)), logged (readPosts f))) /\
  (forall f : file User,
     Disk.readUsers (Disk.of_file f)
     = inr (Disk.Rows (rows (readUsers f)), logged (readUsers f))).
Proof.
  assert (Hfail : forall (A : Type) (read : A -> A) (f : Disk.state A) (error : exn),
            Disk.readFile f = inl error \/
            (exists data, Disk.readFile f = inr data /\
                          Disk.JSON_parse read data = inl error) ->
            exists logged, Disk.load read f = inr (Disk.Rows [], logged)).
  { intros A read f error Hthrown.
    destruct (load_cases read f) as [logged Hload].
    exists logged. rewrite Hload.
    destruct f as [| code | [| d | v]]; try reflexivity;
      destruct Hthrown as [Hr | (data & Hr & Hp)]; try discriminate;
      injection Hr as <-; discriminate. }
  assert (Hok : forall (A : Type) (read : A -> A) (f : Disk.state A) data collection,
            Disk.readFile f = inr data ->
            Disk.JSON_parse read data = inr collection ->
            Disk.load read f = inr (collection, false)).
  { intros A read f data collection Hr Hp. unfold Disk.load.
    by rewrite Hr, Hp. }
  split_and!.
  - intros f. destruct (load_cases json_post f) as [logged Hload]. eauto.
  - intros f. destruct (load_cases (fun user => user) f) as [logged Hload]. eauto.
  - intros f error. apply Hfail.
  - intros f error. apply Hfail.
  - intros f data collection. apply Hok.
  - intros f data collection. apply Hok.
  - intros [| code | | d]; try reflexivity.
    unfold Disk.readPosts, Disk.load, readPosts. simpl.
    by destruct (String.eqb code "ENOENT").
  - intros [| code | | d]; try reflexivity.
    unfold Disk.readUsers, Disk.load, readUsers. simpl.
    by destruct (String.eqb code "ENOENT").
Qed.

Lemma load_fail_open_witness :
  exists logged,
    Disk.readPosts (Disk.Holds Disk.NotJson) = inr (Disk.Rows [], logged).
Proof.
  apply (proj1 (proj2 (proj2 load_fail_open)) (Disk.Holds Disk.NotJson) SyntaxError).
  right. exists Disk.NotJson. split; reflexivity.
Defined.

(** C8, the claim as stated fails: a posts file that holds the JSON text
    [null] loads as [null], which is no list. *)
Lemma load_returns_what_parsed :
  Disk.readPosts (Disk.Holds (Disk.OtherText VNull)) = inr (Disk.NotRows VNull, false) /\
  ~ (exists d logged,
       Disk.readPosts (Disk.Holds (Disk.OtherText VNull)) = inr (Disk.Rows d, logged)).
Proof.
  split; [reflexivity |]. intros (d & logged & Hload). discriminate.
Qed.

(** * Further properties of the handlers *)

(** ** Failed requests *)

Lemma create_post_written (e : env) (userId username content image video : value)
    (posts posts' : list Post) (res : response) :
  create_post e userId username content image video posts = Done res (Some posts') ->
  status res = 201.
Proof.
  unfold create_post. destruct (_ || _ || _); [discriminate |].
  by intros [= <- _].
Qed.

(** A handler that hands a collection to the writer answers 200 or 201. *)
Lemma posts_handler_written (e : env) (r : request) (posts posts' : list Post)
    (res : response) :
  posts_handler e r posts = Some (Done res (Some posts')) ->
  is_error res = false.
Proof.
  intros Hh. destruct r; simpl in Hh; try discriminate.
  - injection Hh as Hc. apply create_post_written in Hc.
    unfold is_error. by rewrite Hc.
  - unfold delete_post in Hh. destruct (Nat.ltb _ _) in Hh; [| discriminate].
    by injection Hh as <- _.
  - unfold clear_mine in Hh. destruct (Nat.ltb _ _) in Hh; [| discriminate].
    by injection Hh as <- _.
  - unfold like_post in Hh.
    destruct (find_post postId posts) as [[i p]|]; [| discriminate].
    destruct (includes (disliked p) userId); [discriminate |].
    by injection Hh as <- _.
  - unfold dislike_post in Hh.
    destruct (find_post postId posts) as [[i p]|]; [| discriminate].
    destruct (includes (liked p) userId); [discriminate |].
    by injection Hh as <- _.
  - unfold comment_post in Hh.
    destruct (find_post postId posts) as [[i p]|]; [| discriminate].
    destruct (_ || _ || _) in Hh; [discriminate |].
    by injection Hh as <- _.
Qed.

Lemma posts_handler_no_throw (e : env) (r : request) (posts : list Post) :
  posts_handler e r posts <> Some Threw.
Proof.
  destruct r; simpl; try discriminate.
  - unfold create_post. by destruct (_ || _ || _).
  - unfold delete_post. by destruct (Nat.ltb _ _).
  - unfold clear_mine. by destruct (Nat.ltb _ _).
  - unfold like_post. destruct (find_post _ _) as [[i p]|]; [| done].
    by destruct (includes (disliked p) userId).
  - unfold dislike_post. destruct (find_post _ _) as [[i p]|]; [| done].
    by destruct (includes (liked p) userId).
  - unfold comment_post. destruct (find_post _ _) as [[i p]|]; [| done].
    by destruct (_ || _ || _).
Qed.

Section Failures.
Context `{HashService}.

Lemma signup_written (e : env) (username password : value) (users users' : list User)
    (res : response) :
  signup e username password users = Done res (Some users') ->
  is_error res = false /\
  exists name pw hashed,
    check_credentials username password = Accepted name pw /\
    existsb (fun user => String.eqb (user_username user) name) users = false /\
    users' = users ++ [mkUser (uuid e) name hashed].
Proof.
  unfold signup.
  destruct (check_credentials username password) as [| name pw |]; try discriminate.
  destruct (existsb _ users) eqn:Hex; [discriminate |].
  destruct (bcrypt_hash pw 10 (salt e)) as [hashed|]; [| discriminate].
  intros [= <- <-]. split; [done |]. by exists name, pw, hashed.
Qed.

Lemma login_never_writes (username password : value) (users users' : list User)
    (res : response) :
  login username password users <> Done res (Some users').
Proof.
  unfold login.
  destruct (check_credentials username password) as [| name pw |]; try discriminate.
  destruct (List.find _ users) as [user|]; [| discriminate].
  by destruct (bcrypt_compare pw (passwordHash user)) as [[|]|].
Qed.

(** X3. A request that fails changes nothing.  Whatever the request, when
    the handler throws or answers with a status of 400 or more, both files
    are as they were: every error path returns before any write. *)
Theorem failed_request_changes_nothing (e : env) (r : request) (s : store) :
  failed (fst (step e r s)) = true -> snd (step e r s) = s.
Proof.
  destruct s as [pf uf]. unfold step.
  destruct (posts_handler e r (rows (readPosts (posts_file (mkStore pf uf)))))
    as [o|] eqn:Hh.
  - assert (Hgoal :
      failed (fst (let '(res, f) := save_posts e o pf in (res, mkStore f uf))) = true ->
      snd (let '(res, f) := save_posts e o pf in (res, mkStore f uf)) = mkStore pf uf).
    { destruct o as [res [posts'|]|]; simpl; try done.
      intros Hfail. apply posts_handler_written in Hh. congruence. }
    destruct r; simpl in Hh; try discriminate; exact Hgoal.
  - destruct r; simpl in Hh; try discriminate; cbn [users_file posts_file].
    + destruct (signup e username password (rows (readUsers uf)))
        as [res [users'|]|] eqn:Hs; simpl; try done.
      intros Hfail. apply signup_written in Hs as [Hs _]. congruence.
    + destruct (login username password (rows (readUsers uf)))
        as [res [users'|]|] eqn:Hl; simpl; try done.
      by apply login_never_writes in Hl.
Qed.
End Failures.

Lemma failed_request_changes_nothing_witness :
  snd (@step toy_service (sample_env "x") (Signup (VStr "alice") (VStr "other"))
         (mkStore NoFile (Doc [mkUser "id-1" "alice" "salt$pw1"])))
  = mkStore NoFile (Doc [mkUser "id-1" "alice" "salt$pw1"]).
Proof.
  apply (@failed_request_changes_nothing toy_service). reflexivity.
Defined.

(** ** The users collection *)

Lemma existsb_name_false (name : string) (users : list User) :
  existsb (fun user => String.eqb (user_username user) name) users = false ->
  name ∉ usernames users.
Proof.
  intros Hex Hin. unfold usernames in Hin.
  apply list_elem_of_In, in_map_iff in Hin as (user & Hname & Hin).
  assert (Htrue : existsb (fun user => String.eqb (user_username user) name) users = true).
  { apply existsb_exists. exists user. split; [done |]. by apply String.eqb_eq. }
  congruence.
Qed.

Lemma existsb_name_true (name : string) (users : list User) (user : User) :
  user ∈ users -> user_username user = name ->
  existsb (fun user => String.eqb (user_username user) name) users = true.
Proof.
  intros Hin Hname. apply existsb_exists. exists user.
  split; [by apply list_elem_of_In | by apply String.eqb_eq].
Qed.

Section Users.
Context `{HashService}.

(** A request leaves the users collection as it was, or is a signup that
    appends one record under a username no record had. *)
Lemma step_users_of (e : env) (r : request) (s : store) :
  users_of (snd (step e r s)) = users_of s \/
  exists name hashed,
    (name ∉ usernames (users_of s)) /\
    users_of (snd (step e r s)) = users_of s ++ [mkUser (uuid e) name hashed].
Proof.
  destruct s as [pf uf]. unfold step, users_of.
  destruct (posts_handler e r (rows (readPosts (posts_file (mkStore pf uf)))))
    as [o|] eqn:Hh.
  - left.
    assert (Hgoal :
      users_file (snd (let '(res, f) := save_posts e o pf in (res, mkStore f uf))) = uf)
      by (by destruct o as [res [posts'|]|]).
    destruct r; simpl in Hh; try discriminate; cbn [users_file posts_file];
      by rewrite Hgoal.
  - destruct r; simpl in Hh; try discriminate; cbn [users_file posts_file].
    + destruct (signup e username password (rows (readUsers uf)))
        as [res [users'|]|] eqn:Hs; simpl; try (by left).
      apply signup_written in Hs as (_ & name & pw & hashed & _ & Hex & ->).
      unfold writeUsers. destruct (write_ok e); [| by left].
      right. exists name, hashed. rewrite readUsers_Doc.
      split; [by apply existsb_name_false | done].
    + left. destruct (login username password (rows (readUsers uf)))
        as [res [users'|]|] eqn:Hl; simpl; try done.
      by apply login_never_writes in Hl.
Qed.

(** X4. Usernames stay unique.  If no two records of the users collection
    share a username, the same holds after any sequence of requests: a
    signup appends a record only under a username no record has. *)
Theorem usernames_stay_unique (trace : list (env * request)) (s : store) :
  NoDup (usernames (users_of s)) -> NoDup (usernames (users_of (run trace s))).
Proof.
  revert s. induction trace as [|[e r] trace IH]; intros s Hs; simpl; [done |].
  apply IH.
  destruct (step_users_of e r s) as [-> | (name & hashed & Hnew & ->)]; [done |].
  unfold usernames. rewrite map_app. simpl.
  apply NoDup_app. split; [done |]. split.
  - intros x Hx Hx'. apply list_elem_of_singleton in Hx'. by subst.
  - apply NoDup_singleton.
Qed.

(** X5. The users collection only grows at its end.  After any sequence of
    requests the records loaded before are still there, unchanged and in
    the same positions: no request removes or rewrites a user. *)
Theorem users_append_only (trace : list (env * request)) (s : store) :
  users_of s `prefix_of` users_of (run trace s).
Proof.
  revert s. induction trace as [|[e r] trace IH]; intros s; simpl; [done |].
  etrans; [| apply IH].
  destruct (step_users_of e r s) as [-> | (name & hashed & _ & ->)]; [done |].
  by apply prefix_app_r.
Qed.

(** X6. A taken username is refused whatever the password.  When a record of
    the users collection has the username, a signup with it is answered 409,
    the username and the password being strings that are not blank (the
    guard before the lookup lets them through); the hash service is not
    consulted and the store is unchanged. *)
Theorem signup_conflict (e : env) (s : store) (name password : string) (user : User) :
  blank name = false -> blank password = false ->
  user ∈ users_of s -> user_username user = name ->
  signup e (VStr name) (VStr password) (users_of s) = Done username_taken None /\
  step e (Signup (VStr name) (VStr password)) s = (Some username_taken, s).
Proof.
  intros Hn Hp Hin Hname.
  assert (Hs : signup e (VStr name) (VStr password) (users_of s)
               = Done username_taken None).
  { unfold signup. rewrite (check_credentials_accepted _ _ Hn Hp).
    by rewrite (existsb_name_true _ _ _ Hin Hname). }
  split; [exact Hs |].
  unfold step. fold (users_of s). rewrite Hs. simpl. by destruct s.
Qed.

(** X7. Credentials that are not strings make the handlers throw.  The
    signup and the login handler throw a TypeError, before loading anything
    and without sending a response of their own, exactly when [username] is
    truthy and not a string, or [username] is a string that is not blank and
    [password] is truthy and not a string; the store is then unchanged. *)
Theorem non_string_credentials_throw (e : env) (username password : value)
    (users : list User) :
  let throws :=
    (truthy username = true /\ not_a_string username = true) \/
    (exists name, username = VStr name /\ blank name = false /\
                  truthy password = true /\ not_a_string password = true) in
  (signup e username password users = Threw <-> throws) /\
  (login username password users = Threw <-> throws) /\
  (throws -> forall s,
     step e (Signup username password) s = (None, s) /\
     step e (Login username password) s = (None, s)).
Proof.
  intros throws.
  assert (Hguard : check_credentials username password = TypeError <-> throws).
  { unfold throws, check_credentials. split.
    - destruct username as [| | b | n | name | text]; simpl; try discriminate.
      + destruct b; [auto | discriminate].
      + destruct n; [discriminate | auto | auto].
      + destruct (String.eqb name ""); simpl; [discriminate |].
        destruct (blank name) eqn:Hb; [discriminate |].
        intros Hc. right. exists name. split; [done |]. split; [done |].
        destruct password as [| | b | n | pw | text]; simpl in *; try discriminate.
        * destruct b; [auto | discriminate].
        * destruct n; [discriminate | auto | auto].
        * destruct (String.eqb pw ""); simpl in Hc; [discriminate |].
          by destruct (blank pw).
        * auto.
      + auto.
    - intros [[Ht Hs] | (name & -> & Hb & Ht & Hs)].
      + rewrite Ht. simpl. by destruct username.
      + rewrite (blank_not_empty _ Hb), Hb, Ht. simpl. by destruct password. }
  assert (Hsignup : signup e username password users = Threw <-> throws).
  { rewrite <- Hguard. unfold signup.
    destruct (check_credentials username password) as [| name pw |];
      [split; discriminate | | done].
    destruct (existsb _ users); [split; discriminate |].
    destruct (bcrypt_hash pw 10 (salt e)); split; discriminate. }
  assert (Hlogin : login username password users = Threw <-> throws).
  { rewrite <- Hguard. unfold login.
    destruct (check_credentials username password) as [| name pw |];
      [split; discriminate | | done].
    destruct (List.find _ users) as [user|]; [| split; discriminate].
    destruct (bcrypt_compare pw (passwordHash user)) as [[|]|];
      split; discriminate. }
  split; [exact Hsignup |]. split; [exact Hlogin |].
  intros Ht s. apply Hguard in Ht. unfold step, signup, login. rewrite Ht.
  simpl. by destruct s.
Qed.
End Users.

Lemma usernames_stay_unique_witness :
  NoDup (usernames (users_of
    (@run toy_service
       [(sample_env "id-1", Signup (VStr "alice") (VStr "pw1"));
        (sample_env "id-2", Signup (VStr "alice") (VStr "pw2"));
        (sample_env "id-3", Signup (VStr "bob") (VStr "pw3"))]
       fresh_store))).
Proof.
  apply (@usernames_stay_unique toy_service). apply NoDup_nil_2.
Defined.

Lemma signup_conflict_witness :
  @step toy_service (sample_env "id-2") (Signup (VStr "alice") (VStr "pw2"))
     (mkStore NoFile (Doc [mkUser "id-1" "alice" "salt$pw1"]))
  = (Some username_taken, mkStore NoFile (Doc [mkUser "id-1" "alice" "salt$pw1"])).
Proof.
  apply (@signup_conflict toy_service (sample_env "id-2")
           (mkStore NoFile (Doc [mkUser "id-1" "alice" "salt$pw1"]))
           "alice" "pw2" (mkUser "id-1" "alice" "salt$pw1"));
    try reflexivity.
  apply list_elem_of_singleton. reflexivity.
Defined.

Lemma non_string_credentials_throw_witness :
  @signup toy_service (sample_env "x") (VNum (number_of_Z 42)) (VStr "pw") [] = Threw /\
  @login toy_service (VStr "alice") (VBool true) [] = Threw.
Proof.
  split.
  - apply (proj1 (@non_string_credentials_throw toy_service (sample_env "x")
                    (VNum (number_of_Z 42)) (VStr "pw") [])).
    left. split; reflexivity.
  - apply (proj1 (proj2 (@non_string_credentials_throw toy_service (sample_env "x")
                           (VStr "alice") (VBool true) []))).
    right. exists "alice". repeat split.
Defined.

(** ** Comments and unknown posts *)

Lemma find_post_None (postId : string) (posts : list Post) :
  find_post postId posts = None <-> forall p, p ∈ posts -> post_id p <> postId.
Proof. unfold find_post. by rewrite list_find_None, Forall_forall. Qed.

(** X8. The comment handler, on a post found for the id.  When [userId],
    [username] or [text] is missing or empty (falsy) it answers 400 and
    writes nothing.  Otherwise it answers 201 and hands the writer the
    collection of the same length in which every other post is as it was
    and the post found has one more comment at the end, with the id drawn by
    [uuidv4()], the current timestamp and the three fields as received; the
    post's other fields, reaction arrays included, are as they were. *)
Theorem comment_post_contract (e : env) (postId : string) (userId username text : value)
    (posts : list Post) (postIndex : nat) (post : Post) :
  find_post postId posts = Some (postIndex, post) ->
  let invalid :=
    truthy userId = false \/ truthy username = false \/ truthy text = false in
  (invalid ->
     comment_post e postId userId username text posts = Done missing_comment_data None) /\
  (~ invalid ->
     exists posts' post',
       comment_post e postId userId username text posts
         = Done (reply 201 "Comment added successfully.") (Some posts') /\
       length posts' = length posts /\
       (forall j, j <> postIndex -> posts' !! j = posts !! j) /\
       posts' !! postIndex = Some post' /\
       commented post'
         = commented post ++ [mkComment (uuid e) userId username text (now e)] /\
       post_id post' = post_id post /\ post_userId post' = post_userId post /\
       post_username post' = post_username post /\
       post_content post' = post_content post /\
       post_image post' = post_image post /\ post_video post' = post_video post /\
       post_timestamp post' = post_timestamp post /\
       likedBy post' = likedBy post /\ dislikedBy post' = dislikedBy post).
Proof.
  intros Hf invalid.
  assert (Hguard :
    negb (truthy userId) || negb (truthy username) || negb (truthy text) = true
    <-> invalid).
  { unfold invalid. rewrite !orb_true_iff, !negb_true_iff. tauto. }
  split.
  - intros Hi. apply Hguard in Hi. unfold comment_post. by rewrite Hf, Hi.
  - intros Hv.
    exists (<[postIndex :=
               set_comments post
                 (commented post ++ [mkComment (uuid e) userId username text (now e)])]>
              posts),
      (set_comments post
         (commented post ++ [mkComment (uuid e) userId username text (now e)])).
    split.
    + unfold comment_post. rewrite Hf.
      destruct (_ || _ || _) eqn:Hg; [| reflexivity].
      exfalso. apply Hv. by apply Hguard.
    + split; [apply length_insert |].
      split; [intros j Hj; by apply list_lookup_insert_ne |].
      split.
      * apply list_lookup_insert_eq.
        apply find_post_Some in Hf as [Hi _]. by eapply lookup_lt_Some.
      * by repeat split.
Qed.

Lemma comment_post_contract_witness :
  comment_post (sample_env "c1") "p1" (VStr "u2") (VStr "bob") (VStr "") 
    [sample_post "p1" "u1" [] []]
  = Done missing_comment_data None.
Proof.
  apply (proj1 (comment_post_contract (sample_env "c1") "p1" (VStr "u2") (VStr "bob")
                  (VStr "") [sample_post "p1" "u1" [] []] 0
                  (sample_post "p1" "u1" [] []) eq_refl)).
  right. right. reflexivity.
Defined.

(** X9. An unknown post id is answered 404 before anything else.  The like,
    the dislike and the comment handler answer 404 "Post not found."
    exactly when no post of the collection has the id; they then write
    nothing, and the comment handler does so even when the comment data are
    missing. *)
Theorem unknown_post_not_found (e : env) (postId : string)
    (userId username text : value) (posts : list Post) :
  let unknown := forall p, p ∈ posts -> post_id p <> postId in
  (like_post postId userId posts = Done post_not_found None <-> unknown) /\
  (dislike_post postId userId posts = Done post_not_found None <-> unknown) /\
  (comment_post e postId userId username text posts = Done post_not_found None
     <-> unknown).
Proof.
  intros unknown. unfold unknown. rewrite <- find_post_None.
  split; [| split].
  - unfold like_post. destruct (find_post postId posts) as [[i p]|]; [| done].
    split; [| discriminate].
    destruct (includes (disliked p) userId); discriminate.
  - unfold dislike_post. destruct (find_post postId posts) as [[i p]|]; [| done].
    split; [| discriminate].
    destruct (includes (liked p) userId); discriminate.
  - unfold comment_post. destruct (find_post postId posts) as [[i p]|]; [| done].
    split; [| discriminate].
    destruct (_ || _ || _); discriminate.
Qed.

(** ** What a toggle leaves alone *)

Lemma map_json_fixed (l : list Post) :
  (forall p, p ∈ l -> json_post p = p) -> map json_post l = l.
Proof.
  induction l as [|p l IH]; simpl; intros Hfix; [done |].
  rewrite (Hfix p) by constructor.
  f_equal. apply IH. intros q Hq. apply Hfix. by constructor.
Qed.

Lemma posts_of_json (s : store) (p : Post) : p ∈ posts_of s -> json_post p = p.
Proof.
  intros [i Hi]%list_elem_of_lookup.
  by apply (fixed_lookup _ _ _ (rows_readPosts_json (posts_file s)) Hi).
Qed.

Lemma includes_without_other (l : list value) (u w : value) :
  w <> u -> includes (without u l) w = includes l w.
Proof.
  intros Hw. unfold includes, without.
  induction l as [|x l IH]; simpl; [done |].
  destruct (strict_eq x u) eqn:Hxu; simpl; [| by rewrite IH].
  rewrite IH.
  destruct (strict_eq x w) eqn:Hxw; [| done].
  apply strict_eq_eq in Hxu, Hxw. congruence.
Qed.

Lemma includes_pushed_other (l : list value) (u w : value) :
  w <> u -> includes (l ++ [u]) w = includes l w.
Proof.
  intros Hw. rewrite includes_app. simpl.
  destruct (strict_eq u w) eqn:Huw; [| by rewrite !orb_false_r].
  apply strict_eq_eq in Huw. congruence.
Qed.

Lemma same_but_reactions_refl (p : Post) : same_but_reactions p p.
Proof. by repeat split. Qed.

Section PostsSteps.
Context `{HashService}.

(** The collection loaded after a request on the posts collection. *)
Lemma step_posts_of (e : env) (r : request) (s : store) (res : response)
    (w : option (list Post)) :
  posts_handler e r (posts_of s) = Some (Done res w) ->
  fst (step e r s) = Some res /\
  posts_of (snd (step e r s))
    = match w with
      | Some posts' => if write_ok e then map json_post posts' else posts_of s
      | None => posts_of s
      end.
Proof.
  intros Hh. rewrite (step_posts e r s res w Hh). split; [done |].
  destruct w as [posts'|]; [| done]. unfold writePosts, posts_of. simpl.
  by destruct (write_ok e).
Qed.

(** X10. A toggle touches one user's reaction on one post.  After a like or
    a dislike, whatever its outcome, the collection has the same posts at
    the same positions, each with its id, owner, content, media, timestamp
    and comments as before, and for every value other than the request's
    [userId] and other than what the [userId] is stored as (which is [null]
    when the [userId] is missing or a number out of range) membership in
    each post's [likedBy] and [dislikedBy] is as before. *)
Theorem toggle_touches_one_user (e : env) (s : store) (postId : string)
    (userId : value) (r : request) :
  r = Like postId userId \/ r = Dislike postId userId ->
  Forall2
    (fun p p' =>
       same_but_reactions p p' /\
       forall w, w <> userId -> w <> json_element userId ->
         includes (liked p') w = includes (liked p) w /\
         includes (disliked p') w = includes (disliked p) w)
    (posts_of s) (posts_of (snd (step e r s))).
Proof.
  intros Hr.
  set (R := fun p p' : Post =>
       same_but_reactions p p' /\
       forall w, w <> userId -> w <> json_element userId ->
         includes (liked p') w = includes (liked p) w /\
         includes (disliked p') w = includes (disliked p) w).
  assert (Hrefl : Forall2 R (posts_of s) (posts_of s)).
  { apply Forall_Forall2_diag, Forall_forall. intros p _.
    split; [apply same_but_reactions_refl | done]. }
  assert (Hone : forall i p l d,
    posts_of s !! i = Some p ->
    (forall w, w <> userId -> w <> json_element userId ->
       includes (map json_element l) w = includes (liked p) w /\
       includes (map json_element d) w = includes (disliked p) w) ->
    Forall2 R (posts_of s)
      (map json_post (<[i := set_reactions p l d]> (posts_of s)))).
  { intros i p l d Hi Hmem.
    assert (Hp : json_post p = p)
      by (apply (posts_of_json s); apply list_elem_of_lookup; eauto).
    rewrite map_insert, (map_json_fixed _ (posts_of_json s)).
    rewrite (json_post_set_reactions _ _ _ Hp).
    rewrite <- (list_insert_id (posts_of s) i p Hi) at 1.
    apply Forall2_insert; [exact Hrefl |].
    split; [by repeat split |]. intros w Hw Hw'. by apply Hmem. }
  destruct Hr as [-> | ->].
  - destruct (like_post postId userId (posts_of s)) as [res w|] eqn:Hl;
      [| exfalso; apply (posts_handler_no_throw e (Like postId userId) (posts_of s));
         simpl; by rewrite Hl].
    destruct (step_posts_of e (Like postId userId) s res w
                ltac:(simpl; by rewrite Hl)) as [_ ->].
    destruct w as [posts'|]; [| done]. destruct (write_ok e); [| done].
    unfold like_post in Hl.
    destruct (find_post postId (posts_of s)) as [[i p]|] eqn:Hf; [| discriminate].
    destruct (includes (disliked p) userId); [discriminate |].
    injection Hl as _ <-.
    destruct (find_post_Some _ _ _ _ Hf) as [Hi _].
    assert (Hp : json_post p = p)
      by (apply (posts_of_json s); apply list_elem_of_lookup; eauto).
    apply Hone; [done |]. intros w Hw Hw'.
    split; [| by rewrite (json_post_fixed_disliked _ Hp)].
    destruct (includes (liked p) userId).
    + rewrite json_fixed_without by (by apply json_post_fixed_liked).
      by apply includes_without_other.
    + rewrite map_app, (json_post_fixed_liked _ Hp). simpl.
      by apply includes_pushed_other.
  - destruct (dislike_post postId userId (posts_of s)) as [res w|] eqn:Hl;
      [| exfalso; apply (posts_handler_no_throw e (Dislike postId userId) (posts_of s));
         simpl; by rewrite Hl].
    destruct (step_posts_of e (Dislike postId userId) s res w
                ltac:(simpl; by rewrite Hl)) as [_ ->].
    destruct w as [posts'|]; [| done]. destruct (write_ok e); [| done].
    unfold dislike_post in Hl.
    destruct (find_post postId (posts_of s)) as [[i p]|] eqn:Hf; [| discriminate].
    destruct (includes (liked p) userId); [discriminate |].
    injection Hl as _ <-.
    destruct (find_post_Some _ _ _ _ Hf) as [Hi _].
    assert (Hp : json_post p = p)
      by (apply (posts_of_json s); apply list_elem_of_lookup; eauto).
    apply Hone; [done |]. intros w Hw Hw'.
    split; [by rewrite (json_post_fixed_liked _ Hp) |].
    destruct (includes (disliked p) userId).
    + rewrite json_fixed_without by (by apply json_post_fixed_disliked).
      by apply includes_without_other.
    + rewrite map_app, (json_post_fixed_disliked _ Hp). simpl.
      by apply includes_pushed_other.
Qed.
End PostsSteps.

Lemma toggle_touches_one_user_witness :
  Forall2
    (fun p p' =>
       same_but_reactions p p' /\
       forall w, w <> VStr "u2" -> w <> json_element (VStr "u2") ->
         includes (liked p') w = includes (liked p) w /\
         includes (disliked p') w = includes (disliked p) w)
    (posts_of (mkStore (Doc [sample_post "p1" "u1" [VStr "u3"] []]) NoFile))
    (posts_of (snd (@step toy_service (sample_env "x") (Like "p1" (VStr "u2"))
                      (mkStore (Doc [sample_post "p1" "u1" [VStr "u3"] []]) NoFile)))).
Proof.
  apply (@toggle_touches_one_user toy_service (sample_env "x")
           (mkStore (Doc [sample_post "p1" "u1" [VStr "u3"] []]) NoFile)
           "p1" (VStr "u2") (Like "p1" (VStr "u2"))).
  left. reflexivity.
Defined.

(** ** Undoing a reaction *)

Lemma includes_without_self (l : list value) (u : value) :
  includes (without u l) u = false.
Proof.
  unfold includes, without. induction l as [|x l IH]; simpl; [done |].
  destruct (strict_eq x u) eqn:Hx; simpl; [done |]. by rewrite Hx.
Qed.

Section Undo.
Context `{HashService}.

(** X11. A like by a user who has liked undoes the like.  For a post found
    for the id whose [likedBy] has the [userId] and whose [dislikedBy] has
    not, a like (persisted) is answered 200 and removes every occurrence of
    the [userId] from [likedBy], leaving [dislikedBy] as it was: the user is
    then in neither set.  A dislike by a user who has disliked does the
    same on [dislikedBy]. *)
Theorem toggle_again_undoes (e : env) (s : store) (postId : string) (userId : value)
    (postIndex : nat) (post : Post) :
  write_ok e = true ->
  find_post postId (posts_of s) = Some (postIndex, post) ->
  (includes (liked post) userId = true -> includes (disliked post) userId = false ->
     exists p',
       fst (step e (Like postId userId) s) = Some (reply 200 "Like status updated.") /\
       find_post postId (posts_of (snd (step e (Like postId userId) s)))
         = Some (postIndex, p') /\
       liked p' = without userId (liked post) /\
       disliked p' = disliked post /\
       reaction_of userId p' = Neutral) /\
  (includes (disliked post) userId = true -> includes (liked post) userId = false ->
     exists p',
       fst (step e (Dislike postId userId) s)
         = Some (reply 200 "Dislike status updated.") /\
       find_post postId (posts_of (snd (step e (Dislike postId userId) s)))
         = Some (postIndex, p') /\
       liked p' = liked post /\
       disliked p' = without userId (disliked post) /\
       reaction_of userId p' = Neutral).
Proof.
  intros Hok Hf.
  assert (Hid : post_id post = postId) by (by destruct (find_post_Some _ _ _ _ Hf)).
  split.
  - intros Hl Hd.
    destruct (step_like_liked e s postId userId postIndex post Hok Hf Hd Hl)
      as (s' & Hs' & Hrows).
    exists (set_reactions post (without userId (liked post)) (disliked post)).
    rewrite Hs'. cbn [fst snd]. split; [done |].
    split; [unfold posts_of; rewrite Hrows; by apply (find_post_insert _ _ _ post) |].
    split; [done |]. split; [done |].
    apply reaction_of_neutral. split; [apply includes_without_self | exact Hd].
  - intros Hd Hl.
    destruct (step_dislike_disliked e s postId userId postIndex post Hok Hf Hl Hd)
      as (s' & Hs' & Hrows).
    exists (set_reactions post (liked post) (without userId (disliked post))).
    rewrite Hs'. cbn [fst snd]. split; [done |].
    split; [unfold posts_of; rewrite Hrows; by apply (find_post_insert _ _ _ post) |].
    split; [done |]. split; [done |].
    apply reaction_of_neutral. split; [exact Hl | apply includes_without_self].
Qed.
End Undo.

Lemma toggle_again_undoes_witness :
  exists p',
    find_post "p1"
      (posts_of (snd (@step toy_service (sample_env "x") (Like "p1" (VStr "u2"))
         (mkStore (Doc [sample_post "p1" "u1" [VStr "u2"; VStr "u3"; VStr "u2"] []])
                  NoFile))))
      = Some (0, p') /\
    liked p' = [VStr "u3"].
Proof.
  destruct (proj1 (@toggle_again_undoes toy_service (sample_env "x")
                     (mkStore (Doc [sample_post "p1" "u1"
                                      [VStr "u2"; VStr "u3"; VStr "u2"] []]) NoFile)
                     "p1" (VStr "u2") 0
                     (sample_post "p1" "u1" [VStr "u2"; VStr "u3"; VStr "u2"] [])
                     eq_refl eq_refl) eq_refl eq_refl)
    as (p' & _ & Hf & Hl & _).
  exists p'. split; [exact Hf | exact Hl].
Defined.

(** ** Post ids *)

Lemma post_ids_json (posts : list Post) : post_ids (map json_post posts) = post_ids posts.
Proof. unfold post_ids. rewrite map_map. by apply map_ext. Qed.

Lemma post_ids_filter (f : Post -> bool) (posts : list Post) :
  post_ids (List.filter f posts) `sublist_of` post_ids posts.
Proof.
  unfold post_ids. induction posts as [|p posts IH]; simpl; [constructor |].
  destruct (f p); simpl; by constructor.
Qed.

Lemma post_ids_insert (posts : list Post) (i : nat) (p q : Post) :
  posts !! i = Some p -> post_id q = post_id p ->
  post_ids (<[i := q]> posts) = post_ids posts.
Proof.
  intros Hi Hq. unfold post_ids. rewrite map_insert, Hq.
  apply list_insert_id.
  change (map post_id posts) with (post_id <$> posts).
  by rewrite list_lookup_fmap, Hi.
Qed.

(** The ids of the collection a handler hands to the writer. *)
Lemma posts_handler_ids (e : env) (r : request) (posts posts' : list Post)
    (res : response) :
  posts_handler e r posts = Some (Done res (Some posts')) ->
  post_ids posts' `sublist_of` post_ids posts \/
  post_ids posts' = post_ids posts ++ [uuid e].
Proof.
  intros Hh. destruct r; simpl in Hh; try discriminate.
  - right. unfold create_post in Hh. destruct (_ || _ || _) in Hh; [discriminate |].
    injection Hh as _ <-. unfold post_ids. by rewrite map_app.
  - left. unfold delete_post in Hh. destruct (Nat.ltb _ _) in Hh; [| discriminate].
    injection Hh as _ <-. apply post_ids_filter.
  - left. unfold clear_mine in Hh. destruct (Nat.ltb _ _) in Hh; [| discriminate].
    injection Hh as _ <-. apply post_ids_filter.
  - left. unfold like_post in Hh.
    destruct (find_post postId posts) as [[i p]|] eqn:Hf; [| discriminate].
    destruct (includes (disliked p) userId); [discriminate |].
    injection Hh as _ <-. apply find_post_Some in Hf as [Hi _].
    by rewrite (post_ids_insert _ _ p).
  - left. unfold dislike_post in Hh.
    destruct (find_post postId posts) as [[i p]|] eqn:Hf; [| discriminate].
    destruct (includes (liked p) userId); [discriminate |].
    injection Hh as _ <-. apply find_post_Some in Hf as [Hi _].
    by rewrite (post_ids_insert _ _ p).
  - left. unfold comment_post in Hh.
    destruct (find_post postId posts) as [[i p]|] eqn:Hf; [| discriminate].
    destruct (_ || _ || _) in Hh; [discriminate |].
    injection Hh as _ <-. apply find_post_Some in Hf as [Hi _].
    by rewrite (post_ids_insert _ _ p).
Qed.

Section PostIds.
Context `{HashService}.

(** A request keeps the ids of the posts, drops some, or appends the one
    drawn for it. *)
Lemma step_post_ids (e : env) (r : request) (s : store) :
  post_ids (posts_of (snd (step e r s))) `sublist_of` post_ids (posts_of s) \/
  post_ids (posts_of (snd (step e r s))) = post_ids (posts_of s) ++ [uuid e].
Proof.
  destruct (posts_handler e r (posts_of s)) as [[res w|]|] eqn:Hh.
  - destruct (step_posts_of e r s res w Hh) as [_ ->].
    destruct w as [posts'|]; [| by left]. destruct (write_ok e); [| by left].
    rewrite post_ids_json. by apply (posts_handler_ids e r _ _ res).
  - by apply posts_handler_no_throw in Hh.
  - left. destruct s as [pf uf]. unfold posts_of in *.
    destruct r; simpl in Hh; try discriminate; unfold step; cbn [users_file posts_file].
    + by destruct (save_users e _ uf).
    + by destruct (save_users e _ uf).
Qed.

(** X13. Post ids stay unique.  Along any sequence of requests in which
    each id drawn by [uuidv4()] differs from the ids of the posts then
    stored, a collection whose posts have pairwise different ids keeps that
    property: no handler copies a post or changes a post's id. *)
Theorem post_ids_stay_unique (trace : list (env * request)) (s : store) :
  NoDup (post_ids (posts_of s)) ->
  (forall (before : list (env * request)) (e : env) (r : request)
          (after : list (env * request)),
     trace = before ++ (e, r) :: after ->
     uuid e ∉ post_ids (posts_of (run before s))) ->
  NoDup (post_ids (posts_of (run trace s))).
Proof.
  revert s. induction trace as [|[e r] trace IH]; intros s Hs Hfresh; simpl; [done |].
  apply IH.
  - destruct (step_post_ids e r s) as [Hsub | ->].
    + by eapply sublist_NoDup.
    + apply NoDup_app. split; [done |]. split; [| apply NoDup_singleton].
      intros x Hx Hx'. apply list_elem_of_singleton in Hx'. subst x.
      by apply (Hfresh [] e r trace).
  - intros before e' r' after ->.
    apply (Hfresh ((e, r) :: before) e' r' after). reflexivity.
Qed.
End PostIds.

Lemma post_ids_stay_unique_witness :
  NoDup (post_ids (posts_of
    (@run toy_service
       [(sample_env "p1",
         CreatePost (VStr "u1") (VStr "alice") (VStr "hi") VUndefined VUndefined);
        (sample_env "p2",
         CreatePost (VStr "u2") (VStr "bob") VUndefined (VStr "img") VUndefined)]
       fresh_store))).
Proof.
  apply (@post_ids_stay_unique toy_service).
  - apply NoDup_nil_2.
  - intros before e r after Htrace.
    destruct before as [|x [|y [|z before]]]; simpl in Htrace.
    + injection Htrace as <- <- <-. simpl. apply not_elem_of_nil.
    + injection Htrace as <- <- <- <-. simpl. intros Hin.
      apply list_elem_of_singleton in Hin. discriminate.
    + injection Htrace as _ _ Habs. discriminate.
    + injection Htrace as _ _ Habs. by destruct before.
Defined.

(** ** Creating, listing and removing *)

Lemma list_filter_keeps_all {A : Type} (f : A -> bool) (l : list A) :
  Nat.ltb (length (List.filter f l)) (length l) = false -> List.filter f l = l.
Proof.
  intros Hlt. apply list_filter_all. intros x Hx.
  destruct (f x) eqn:Hfx; [done |].
  pose proof (list_filter_shorter f l x Hx Hfx) as Hs.
  apply Nat.ltb_lt in Hs. congruence.
Qed.

Lemma list_filter_twice {A : Type} (f : A -> bool) (l : list A) :
  List.filter f (List.filter f l) = List.filter f l.
Proof.
  apply list_filter_all. intros x Hx.
  by apply list_elem_of_In, filter_In in Hx as [_ Hx].
Qed.

Lemma map_json_filter (f : Post -> bool) (s : store) :
  map json_post (List.filter f (posts_of s)) = List.filter f (posts_of s).
Proof.
  apply map_json_fixed. intros p Hp. apply (posts_of_json s).
  by apply list_elem_of_In, filter_In in Hp as [Hp%list_elem_of_In _].
Qed.

Section Lifecycle.
Context `{HashService}.

(** X14. A created post is listed last.  After a create that passes
    validation and whose write completes, listing the posts answers 200 with
    the collection loaded before the create, in its order, followed by the
    new post as it reads back from the file (what the 201 body shows once
    serialised: a field that is a number out of range reads [null]);
    listing changes nothing. *)
Theorem create_then_list (e e' : env) (s : store)
    (userId username content image video : value) :
  truthy userId = true -> truthy username = true ->
  truthy content = true \/ truthy image = true \/ truthy video = true ->
  write_ok e = true ->
  let s1 := snd (step e (CreatePost userId username content image video) s) in
  let newPost :=
    mkPost (uuid e) userId username (or_else content (VStr ""))
           (or_else image VNull) (or_else video VNull) (now e)
           (Some []) (Some []) (Some []) in
  step e' ListPosts s1
    = (Some (mkResponse 200 (PostsJson (posts_of s ++ [json_post newPost]))), s1).
Proof.
  intros Hu Hn Hpay Hok s1 newPost.
  assert (Hc : create_post e userId username content image video (posts_of s)
               = Done (mkResponse 201 (PostJson newPost))
                   (Some (posts_of s ++ [newPost]))).
  { unfold create_post. rewrite Hu, Hn. simpl.
    destruct Hpay as [-> | [-> | ->]]; simpl;
      rewrite ?andb_false_r; reflexivity. }
  assert (Hposts : posts_of s1 = posts_of s ++ [json_post newPost]).
  { unfold s1.
    destruct (step_posts_of e (CreatePost userId username content image video) s _ _
                ltac:(simpl; rewrite Hc; reflexivity)) as [_ ->].
    rewrite Hok, map_app. cbn [map].
    by rewrite (map_json_fixed _ (posts_of_json s)). }
  rewrite (step_posts e' ListPosts s1 (mkResponse 200 (PostsJson (posts_of s1))) None)
    by reflexivity.
  by rewrite Hposts.
Qed.

(** X15. Deleting a post just created restores the collection.  After a
    create that passes validation, with an id no stored post has and a
    truthy [userId] that is a string, a finite number or a boolean, a delete
    of that id by that [userId] is answered 200, and (both writes
    completing) the posts loaded afterwards are the ones loaded before the
    create. *)
Theorem create_then_delete (e e' : env) (s : store)
    (userId username content image video : value) :
  truthy userId = true -> primitive userId = true -> truthy username = true ->
  truthy content = true \/ truthy image = true \/ truthy video = true ->
  uuid e ∉ post_ids (posts_of s) ->
  write_ok e = true -> write_ok e' = true ->
  let s1 := snd (step e (CreatePost userId username content image video) s) in
  fst (step e' (DeletePost (uuid e) userId) s1)
    = Some (reply 200 "Post deleted successfully.") /\
  posts_of (snd (step e' (DeletePost (uuid e) userId) s1)) = posts_of s.
Proof.
  intros Hu Hprim Hn Hpay Hfresh Hok Hok' s1.
  set (newPost :=
    mkPost (uuid e) userId username (or_else content (VStr ""))
           (or_else image VNull) (or_else video VNull) (now e)
           (Some []) (Some []) (Some [])).
  assert (Hc : create_post e userId username content image video (posts_of s)
               = Done (mkResponse 201 (PostJson newPost))
                   (Some (posts_of s ++ [newPost]))).
  { unfold create_post. rewrite Hu, Hn. simpl.
    destruct Hpay as [-> | [-> | ->]]; simpl;
      rewrite ?andb_false_r; reflexivity. }
  assert (Hposts : posts_of s1 = posts_of s ++ [json_post newPost]).
  { unfold s1.
    destruct (step_posts_of e (CreatePost userId username content image video) s _ _
                ltac:(simpl; rewrite Hc; reflexivity)) as [_ ->].
    rewrite Hok, map_app. cbn [map].
    by rewrite (map_json_fixed _ (posts_of_json s)). }
  assert (Hown : owned_by (uuid e) userId (json_post newPost) = true).
  { unfold owned_by. cbn [json_post newPost post_id post_userId].
    rewrite String.eqb_refl. simpl.
    destruct (primitive_spec _ Hprim) as [Hjson Hrefl].
    assert (Hfield : json_field userId = userId)
      by (destruct userId; try discriminate; exact Hjson).
    by rewrite Hfield. }
  assert (Hkeep : List.filter (fun p => negb (owned_by (uuid e) userId p))
                    (posts_of s ++ [json_post newPost]) = posts_of s).
  { rewrite List.filter_app. cbn [List.filter]. rewrite Hown. simpl.
    rewrite app_nil_r. apply list_filter_all. intros p Hp.
    unfold owned_by.
    destruct (String.eqb (post_id p) (uuid e)) eqn:Hid; [| done].
    apply String.eqb_eq in Hid. exfalso. apply Hfresh. rewrite <- Hid.
    unfold post_ids. apply list_elem_of_In, in_map. by apply list_elem_of_In. }
  assert (Hd : delete_post (uuid e) userId (posts_of s1)
               = Done (reply 200 "Post deleted successfully.") (Some (posts_of s))).
  { unfold delete_post. rewrite Hposts, Hkeep, length_app. simpl.
    assert (Hlt : length (posts_of s) < length (posts_of s) + 1) by lia.
    apply Nat.ltb_lt in Hlt. by rewrite Hlt. }
  destruct (step_posts_of e' (DeletePost (uuid e) userId) s1 _ _
              ltac:(simpl; rewrite Hd; reflexivity)) as [-> ->].
  split; [done |]. rewrite Hok'. apply (map_json_fixed _ (posts_of_json s)).
Qed.

(** X16. A removal cannot be repeated.  After a delete whose write, if any,
    completes, the same delete is answered 403; after a clear whose write,
    if any, completes, the same clear is answered 404: no post is left for
    them to remove. *)
Theorem removal_not_repeatable (e e' : env) (s : store) (postId : string)
    (userId : value) :
  write_ok e = true ->
  fst (step e' (DeletePost postId userId) (snd (step e (DeletePost postId userId) s)))
    = Some not_authorized /\
  fst (step e' (ClearMine userId) (snd (step e (ClearMine userId) s)))
    = Some no_posts_for_user.
Proof.
  intros Hok. split.
  - set (f := fun p => negb (owned_by postId userId p)).
    assert (Hafter : posts_of (snd (step e (DeletePost postId userId) s))
                     = List.filter f (posts_of s)).
    { destruct (Nat.ltb (length (List.filter f (posts_of s))) (length (posts_of s)))
        eqn:Hlt.
      - destruct (step_posts_of e (DeletePost postId userId) s
                    (reply 200 "Post deleted successfully.")
                    (Some (List.filter f (posts_of s)))
                    ltac:(simpl; unfold delete_post; fold f; by rewrite Hlt))
          as [_ ->].
        rewrite Hok. apply map_json_filter.
      - destruct (step_posts_of e (DeletePost postId userId) s not_authorized None
                    ltac:(simpl; unfold delete_post; fold f; by rewrite Hlt))
          as [_ ->].
        symmetry. by apply list_filter_keeps_all. }
    apply (step_posts_of e' (DeletePost postId userId)
             (snd (step e (DeletePost postId userId) s)) not_authorized None).
    cbn [posts_handler]. unfold delete_post. fold f.
    rewrite Hafter, list_filter_twice.
    by rewrite Nat.ltb_irrefl.
  - set (f := fun p => negb (strict_eq (post_userId p) userId)).
    assert (Hafter : posts_of (snd (step e (ClearMine userId) s))
                     = List.filter f (posts_of s)).
    { destruct (Nat.ltb (length (List.filter f (posts_of s))) (length (posts_of s)))
        eqn:Hlt.
      - destruct (step_posts_of e (ClearMine userId) s
                    (reply 200 "Your posts cleared successfully.")
                    (Some (List.filter f (posts_of s)))
                    ltac:(simpl; unfold clear_mine; fold f; by rewrite Hlt))
          as [_ ->].
        rewrite Hok. apply map_json_filter.
      - destruct (step_posts_of e (ClearMine userId) s no_posts_for_user None
                    ltac:(simpl; unfold clear_mine; fold f; by rewrite Hlt))
          as [_ ->].
        symmetry. by apply list_filter_keeps_all. }
    apply (step_posts_of e' (ClearMine userId)
             (snd (step e (ClearMine userId) s)) no_posts_for_user None).
    cbn [posts_handler]. unfold clear_mine. fold f.
    rewrite Hafter, list_filter_twice.
    by rewrite Nat.ltb_irrefl.
Qed.

(** X17. A post whose [userId] is an object or an array cannot be removed.
    The create handler accepts such a [userId] (it is truthy), but [===]
    never holds between it and a request's value, so the post is still in
    the collection after any delete or clear, whatever their arguments. *)
Theorem object_owner_post_stays (e : env) (s : store) (r : request) (p : Post)
    (text : string) :
  (exists postId userId, r = DeletePost postId userId) \/
  (exists userId, r = ClearMine userId) ->
  post_userId p = VObj text ->
  p ∈ posts_of s ->
  p ∈ posts_of (snd (step e r s)).
Proof.
  intros Hr Hobj Hin.
  assert (Hkeep : forall f : Post -> bool, f p = true ->
            p ∈ map json_post (List.filter f (posts_of s))).
  { intros f Hf. rewrite map_json_filter.
    apply list_elem_of_In, filter_In. split; [by apply list_elem_of_In | done]. }
  destruct Hr as [(postId & userId & ->) | (userId & ->)].
  - destruct (delete_post postId userId (posts_of s)) as [res w|] eqn:Hd;
      [| unfold delete_post in Hd; by destruct (Nat.ltb _ _)].
    destruct (step_posts_of e (DeletePost postId userId) s res w
                ltac:(simpl; by rewrite Hd)) as [_ ->].
    destruct w as [posts'|]; [| done]. destruct (write_ok e); [| done].
    unfold delete_post in Hd. destruct (Nat.ltb _ _) in Hd; [| discriminate].
    injection Hd as _ <-. apply Hkeep.
    unfold owned_by. rewrite Hobj. simpl. by rewrite andb_false_r.
  - destruct (clear_mine userId (posts_of s)) as [res w|] eqn:Hd;
      [| unfold clear_mine in Hd; by destruct (Nat.ltb _ _)].
    destruct (step_posts_of e (ClearMine userId) s res w
                ltac:(simpl; by rewrite Hd)) as [_ ->].
    destruct w as [posts'|]; [| done]. destruct (write_ok e); [| done].
    unfold clear_mine in Hd. destruct (Nat.ltb _ _) in Hd; [| discriminate].
    injection Hd as _ <-. apply Hkeep.
    by rewrite Hobj.
Qed.
End Lifecycle.

Lemma create_then_list_witness :
  @step toy_service (sample_env "x") ListPosts
    (snd (@step toy_service (sample_env "p2")
            (CreatePost (VStr "u2") (VStr "bob") (VStr "hello") VUndefined VUndefined)
            (mkStore (Doc [sample_post "p1" "u1" [] []]) NoFile)))
  = (Some (mkResponse 200
             (PostsJson
                [sample_post "p1" "u1" [] [];
                 mkPost "p2" (VStr "u2") (VStr "bob") (VStr "hello") VNull VNull
                        "2025-01-02T00:00:00.000Z" (Some []) (Some []) (Some [])])),
     snd (@step toy_service (sample_env "p2")
            (CreatePost (VStr "u2") (VStr "bob") (VStr "hello") VUndefined VUndefined)
            (mkStore (Doc [sample_post "p1" "u1" [] []]) NoFile))).
Proof.
  apply (@create_then_list toy_service (sample_env "p2") (sample_env "x")
           (mkStore (Doc [sample_post "p1" "u1" [] []]) NoFile)
           (VStr "u2") (VStr "bob") (VStr "hello") VUndefined VUndefined
           eq_refl eq_refl (or_introl eq_refl) eq_refl).
Defined.

Lemma create_then_delete_witness :
  posts_of
    (snd (@step toy_service (sample_env "x") (DeletePost "p2" (VStr "u2"))
       (snd (@step toy_service (sample_env "p2")
               (CreatePost (VStr "u2") (VStr "bob") (VStr "hello") VUndefined VUndefined)
               (mkStore (Doc [sample_post "p1" "u1" [] []]) NoFile)))))
  = [sample_post "p1" "u1" [] []].
Proof.
  apply (@create_then_delete toy_service (sample_env "p2") (sample_env "x")
           (mkStore (Doc [sample_post "p1" "u1" [] []]) NoFile)
           (VStr "u2") (VStr "bob") (VStr "hello") VUndefined VUndefined);
    try reflexivity.
  - left. reflexivity.
  - simpl. intros Hin. apply list_elem_of_singleton in Hin. discriminate.
Defined.

Lemma removal_not_repeatable_witness :
  fst (@step toy_service (sample_env "y") (DeletePost "p1" (VStr "u1"))
         (snd (@step toy_service (sample_env "x") (DeletePost "p1" (VStr "u1"))
                 (mkStore (Doc [sample_post "p1" "u1" [] []]) NoFile))))
  = Some not_authorized.
Proof.
  apply (@removal_not_repeatable toy_service (sample_env "x") (sample_env "y")
           (mkStore (Doc [sample_post "p1" "u1" [] []]) NoFile) "p1" (VStr "u1")
           eq_refl).
Defined.

Lemma object_owner_post_stays_witness :
  mkPost "p1" (VObj "{}") (VStr "eve") (VStr "hi") VNull VNull
         "2025-01-01T00:00:00.000Z" (Some []) (Some []) (Some [])
  ∈ posts_of
      (snd (@step toy_service (sample_env "x") (DeletePost "p1" (VObj "{}"))
         (mkStore
            (Doc [mkPost "p1" (VObj "{}") (VStr "eve") (VStr "hi") VNull VNull
                         "2025-01-01T00:00:00.000Z" (Some []) (Some []) (Some [])])
            NoFile))).
Proof.
  apply (@object_owner_post_stays toy_service (sample_env "x") _ _ _ "{}").
  - left. by exists "p1", (VObj "{}").
  - reflexivity.
  - apply list_elem_of_singleton. reflexivity.
Defined.

(** ** Who gets in *)

Section Access.
Context `{HashService}.

(** X18. A login that succeeds names a stored user the hash service
    vouches for.  Whenever the login handler answers 200, the credentials
    are strings that are not blank, the users collection has a record under
    that username (the first such record) whose hash the service verified
    the password against, the response carries that record's id and
    username, and nothing is written. *)
Theorem login_success_sound (username password : value) (users : list User)
    (res : response) (w : option (list User)) :
  login username password users = Done res w ->
  status res = 200 ->
  exists name pw user,
    username = VStr name /\ password = VStr pw /\
    blank name = false /\ blank pw = false /\
    user ∈ users /\ user_username user = name /\
    List.find (fun u => String.eqb (user_username u) name) users = Some user /\
    bcrypt_compare pw (passwordHash user) = Some true /\
    res = mkResponse 200 (Session (user_id user) name "Logged in successfully!") /\
    w = None.
Proof.
  unfold login. intros Hl Hs.
  destruct (check_credentials username password) as [| name pw |] eqn:Hc;
    [injection Hl as <- _; discriminate | | discriminate].
  assert (Hstr : username = VStr name /\ password = VStr pw /\
                 blank name = false /\ blank pw = false).
  { unfold check_credentials in Hc.
    destruct (truthy username); simpl in Hc; [| discriminate].
    destruct username as [| | | | n |]; try discriminate.
    destruct (blank n) eqn:Hbn; [discriminate |].
    destruct (truthy password); simpl in Hc; [| discriminate].
    destruct password as [| | | | p |]; try discriminate.
    destruct (blank p) eqn:Hbp; [discriminate |].
    by injection Hc as <- <-. }
  destruct Hstr as (-> & -> & Hbn & Hbp).
  destruct (List.find _ users) as [user|] eqn:Hfind;
    [| injection Hl as <- _; discriminate].
  destruct (bcrypt_compare pw (passwordHash user)) as [[|]|] eqn:Hv;
    try (injection Hl as <- _; discriminate).
  injection Hl as <- <-.
  destruct (find_some _ _ Hfind) as [Hin Hname%String.eqb_eq].
  exists name, pw, user. rewrite Hname.
  split_and!; try done. by apply list_elem_of_In.
Qed.

(** X19. Missing or blank credentials are refused first.  The signup and
    the login handler answer 400 "Username and password cannot be empty."
    exactly when [username] is missing or empty (falsy) or a blank string,
    or [username] is a string that is not blank and [password] is falsy or a
    blank string; in the first case whatever [password] is. *)
Theorem empty_credentials_refused (e : env) (username password : value)
    (users : list User) :
  let empty :=
    truthy username = false \/
    (exists name, username = VStr name /\ blank name = true) \/
    (exists name, username = VStr name /\ blank name = false /\
       (truthy password = false \/ exists pw, password = VStr pw /\ blank pw = true)) in
  (signup e username password users = Done empty_credentials None <-> empty) /\
  (login username password users = Done empty_credentials None <-> empty).
Proof.
  intros empty.
  assert (Hguard : check_credentials username password = Rejected <-> empty).
  { unfold empty, check_credentials. split.
    - destruct (truthy username) eqn:Ht; simpl; [| auto].
      destruct username as [| | | | name |]; try discriminate.
      destruct (blank name) eqn:Hb; [intros _; right; left; eauto |].
      intros Hc. right. right. exists name. split; [done |]. split; [done |].
      destruct (truthy password) eqn:Hp; simpl in Hc; [| auto].
      destruct password as [| | | | pw |]; try discriminate.
      destruct (blank pw) eqn:Hbp; [| discriminate].
      right. eauto.
    - intros [Ht | [(name & -> & Hb) | (name & -> & Hb & Hp)]].
      + by rewrite Ht.
      + destruct (truthy (VStr name)); simpl; [| done]. by rewrite Hb.
      + rewrite (blank_not_empty _ Hb), Hb. simpl.
        destruct Hp as [Hp | (pw & -> & Hbp)]; [by rewrite Hp |].
        destruct (truthy (VStr pw)); simpl; [| done]. by rewrite Hbp. }
  split.
  - rewrite <- Hguard. unfold signup.
    destruct (check_credentials username password) as [| name pw |];
      [done | | split; discriminate].
    destruct (existsb _ users); [split; discriminate |].
    destruct (bcrypt_hash pw 10 (salt e)); split; discriminate.
  - rewrite <- Hguard. unfold login.
    destruct (check_credentials username password) as [| name pw |];
      [done | | split; discriminate].
    destruct (List.find _ users) as [user|]; [| split; discriminate].
    destruct (bcrypt_compare pw (passwordHash user)) as [[|]|];
      split; discriminate.
Qed.
End Access.

Lemma login_success_sound_witness :
  exists user,
    user ∈ [mkUser "id-1" "alice" "salt$pw1"] /\
    toy_compare "pw1" (passwordHash user) = Some true.
Proof.
  destruct (@login_success_sound toy_service (VStr "alice") (VStr "pw1")
              [mkUser "id-1" "alice" "salt$pw1"]
              (mkResponse 200 (Session "id-1" "alice" "Logged in successfully!"))
              None eq_refl eq_refl)
    as (name & pw & user & Hn & Hp & _ & _ & Hin & _ & _ & Hv & _).
  injection Hp as <-. exists user. split; [exact Hin | exact Hv].
Defined.
